(** * Electromagnetism applets: Faraday's law and Lorentz force

    A shallow embedding of the two computational cores of the repository,

    - [faraday_simulation] (notebook "Faraday's Law Simulation"), and
    - [particle_trajectory] (notebook "Lorentz-test-Final"),

    together with the NumPy routines they call ([np.arange], [np.linspace],
    [np.gradient] and the element-wise array operations).

    Modelling conventions.

    - A Python [float] is modelled as a real number of [R]: arithmetic is
      exact, which is the reading under which the notebooks' formulas are
      meant ("within floating-point tolerance").  Rounding, underflow and
      overflow are outside the model.  The IEEE values inf and nan appear
      only in [Float64], which models what NumPy returns where Python
      raises: a division by a zero NumPy scalar.
    - A one-dimensional [np.ndarray] is a [list R].
    - Python exceptions are values of [Py.exn], threaded through the small
      error monad [Py.result].  The scalar division [/] of two Python floats
      raises [ZeroDivisionError] on a zero divisor, and that is modelled.
    - The plotting calls have no effect on the computed data and are left
      out: [faraday_simulation] returns the three arrays it hands to the
      plotting library.
    - [plot_trajectory] (same notebook as [particle_trajectory]) is modelled
      as far as it computes numbers: the line and marker it draws and the
      three axis ranges, recorded in [Plt.Axes3D].  The sliders of both
      notebooks are [Widgets.FloatSlider] records. *)

From Stdlib Require Import Reals List ZArith Lia Lra.
Import ListNotations.

Open Scope R_scope.

(* ================================================================== *)
(** * Python scalars and exceptions *)
(* ================================================================== *)

Module Py.

Inductive exn : Set :=
| ZeroDivisionError
| ValueError.

Inductive result (A : Type) : Type :=
| Return (a : A)
| Raise (e : exn).

Arguments Return {A} a.
Arguments Raise {A} e.

Definition bind {A B : Type} (c : result A) (k : A -> result B) : result B :=
  match c with
  | Return a => k a
  | Raise e => Raise e
  end.

(** [a / b] when both operands are Python [float] (or [int]) objects:
    "float division by zero" is an exception.  This is the division the
    notebooks perform when their arguments come from the sliders or are
    written as Python literals.  When an operand is a NumPy scalar the
    same [/] is NumPy's division, which does not raise; that case is
    [Float64.div] below. *)
Definition truediv (a b : R) : result R :=
  if Req_dec_T b 0 then Raise ZeroDivisionError else Return (a / b).


(** [c] terminated normally. *)
Definition returns {A : Type} (c : result A) : Prop :=
  exists a, c = Return a.


End Py.

Notation "x <- c ;; k" := (Py.bind c (fun x => k))
  (at level 61, c at next level, right associativity).
Notation "' pat <- c ;; k" := (Py.bind c (fun x => match x with pat => k end))
  (at level 61, pat pattern, c at next level, right associativity).

(* ================================================================== *)
(** * The NumPy routines used by the notebooks *)
(* ================================================================== *)

Module Np.

Definition ndarray : Type := list R.

(** Smallest integer not below [x]. *)
Definition ceil (x : R) : Z := (1 - up (- x))%Z.

(** Element-wise operations with a scalar operand. *)
Definition smul (c : R) (a : ndarray) : ndarray := map (fun e => c * e) a.
Definition muls (a : ndarray) (c : R) : ndarray := map (fun e => e * c) a.
Definition adds (a : ndarray) (c : R) : ndarray := map (fun e => e + c) a.
Definition subs (a : ndarray) (c : R) : ndarray := map (fun e => e - c) a.
Definition divs (a : ndarray) (c : R) : ndarray := map (fun e => e / c) a.
Definition pows (a : ndarray) (k : nat) : ndarray := map (fun e => e ^ k) a.
Definition neg (a : ndarray) : ndarray := map Ropp a.

(** Element-wise functions.  Over [R] the exponential is strictly
    positive, while [np.exp] underflows to exactly [0.0] for arguments
    below about -745; statements about its sign are therefore made with
    [<=], which holds either way. *)
Definition exp (a : ndarray) : ndarray := map Rtrigo_def.exp a.
Definition cos (a : ndarray) : ndarray := map Rtrigo_def.cos a.
Definition sin (a : ndarray) : ndarray := map Rtrigo_def.sin a.

(** [np.arange(n)]: the indices [0, 1, ..., n-1] as floats. *)
Definition iota (n : nat) : ndarray := map INR (seq 0 n).

(** [np.arange(start, stop, step)] for a positive step: the values
    [start + i*step] for [i = 0 .. ceil((stop - start)/step) - 1]; empty
    when that count is not positive.  NumPy takes the ceiling of the
    quotient as rounded to a double, so when the exact quotient is a whole
    number the rounded one may lie just above it and the array then has
    one more entry; over [R] the quotient is exact.  A statement that
    gives the number of entries for every duration is therefore made as
    bounds that allow for that extra entry. *)
Definition arange (start stop step : R) : ndarray :=
  let len := Z.to_nat (ceil ((stop - start) / step)) in
  map (fun i => start + INR i * step) (seq 0 len).

(** [y[-1] = v]. *)
Definition set_last (y : ndarray) (v : R) : ndarray :=
  match y with
  | [] => []
  | _ => removelast y ++ [v]
  end.

(** [np.linspace(start, stop, num)] with the default [endpoint=True]:
    a negative [num] is a [ValueError]; otherwise [np.arange(num)] is scaled
    by [step = (stop - start)/(num - 1)] (divided by [num - 1] and then
    multiplied by [stop - start] when that step is zero; multiplied by
    [stop - start] alone when [num - 1 <= 0]), shifted by [start], and for
    [num > 1] the last entry is overwritten with [stop]. *)
Definition linspace (start stop : R) (num : Z) : Py.result ndarray :=
  if (num <? 0)%Z then Py.Raise Py.ValueError
  else
    let div := (num - 1)%Z in
    let delta := stop - start in
    let y := iota (Z.to_nat num) in
    let y := if (0 <? div)%Z
             then let step := delta / IZR div in
                  if Req_dec_T step 0 then muls (divs y (IZR div)) delta
                  else muls y step
             else muls y delta in
    let y := adds y start in
    Py.Return (if (1 <? num)%Z then set_last y stop else y).

(** [np.gradient(f, dx)] for a one-dimensional array and a scalar spacing,
    with the default [edge_order=1]: fewer than two elements is a
    [ValueError]; otherwise second-order central differences in the
    interior and first-order one-sided differences at the two ends. *)
Definition gradient (f : ndarray) (dx : R) : Py.result ndarray :=
  let n := length f in
  if (n <? 2)%nat then Py.Raise Py.ValueError
  else
    Py.Return
      (map (fun i =>
              if (i =? 0)%nat then (nth 1 f 0 - nth 0 f 0) / dx
              else if (i =? n - 1)%nat
                   then (nth (n - 1) f 0 - nth (n - 2) f 0) / dx
                   else (nth (i + 1) f 0 - nth (i - 1) f 0) / (2 * dx))
           (seq 0 n)).

(** [abs(a)], element-wise. *)
Definition abs (a : ndarray) : ndarray := map Rabs a.

(** [a.max()]: the largest element; a [ValueError] on an empty array
    ("zero-size array to reduction operation maximum"). *)
Definition amax (a : ndarray) : Py.result R :=
  match a with
  | [] => Py.Raise Py.ValueError
  | e :: a' => Py.Return (fold_left Rmax a' e)
  end.

End Np.

(* ================================================================== *)
(** * Lorentz force: [particle_trajectory] *)
(* ================================================================== *)

Module Lorentz.

(** Charge of the particle (C). *)
Definition q : R := 1.6e-19.
(** Mass of the particle (kg). *)
Definition m : R := 9.11e-31.

(** Default arguments of [particle_trajectory]. *)
Definition default_t_max : R := 1e-6.
Definition default_num_points : Z := 500.

(** [r = m * v_perp / (q * B)], the radius of the circular motion. *)
Definition radius (B v_perp : R) : Py.result R :=
  Py.truediv (m * v_perp) (q * B).

(** [omega = q * B / m], the angular velocity. *)
Definition angular_velocity (B : R) : Py.result R :=
  Py.truediv (q * B) m.

Definition particle_trajectory (B v_perp v_parallel t_max : R) (num_points : Z)
  : Py.result (Np.ndarray * Np.ndarray * Np.ndarray) :=
  r <- radius B v_perp ;;
  omega <- angular_velocity B ;;
  t <- Np.linspace 0 t_max num_points ;;
  let x := Np.smul r (Np.cos (Np.smul omega t)) in
  let y := Np.smul r (Np.sin (Np.smul omega t)) in
  let z := Np.smul v_parallel t in
  Py.Return (x, y, z).

End Lorentz.

(** NumPy's [float64] scalars with the IEEE special values.  Finite
    arithmetic is exact, as for Python floats; what is added is what NumPy
    returns where Python raises: a division by zero gives an infinity (or
    nan for [0/0]) together with a warning, and the specials propagate.
    Zero is the positive zero. *)
Module Float64.

Inductive t : Type :=
| Fin (r : R)
| PInf
| NInf
| NaN.

Definition mul (a b : t) : t :=
  match a, b with
  | NaN, _ | _, NaN => NaN
  | Fin x, Fin y => Fin (x * y)
  | Fin x, PInf | PInf, Fin x =>
      if Req_dec_T x 0 then NaN else if Rlt_dec 0 x then PInf else NInf
  | Fin x, NInf | NInf, Fin x =>
      if Req_dec_T x 0 then NaN else if Rlt_dec 0 x then NInf else PInf
  | PInf, PInf | NInf, NInf => PInf
  | PInf, NInf | NInf, PInf => NInf
  end.

Definition div (a b : t) : t :=
  match a, b with
  | NaN, _ | _, NaN => NaN
  | Fin x, Fin y =>
      if Req_dec_T y 0
      then if Req_dec_T x 0 then NaN
           else if Rlt_dec 0 x then PInf else NInf
      else Fin (x / y)
  | Fin _, PInf | Fin _, NInf => Fin 0
  | PInf, Fin y => if Rlt_dec y 0 then NInf else PInf
  | NInf, Fin y => if Rlt_dec y 0 then PInf else NInf
  | PInf, PInf | PInf, NInf | NInf, PInf | NInf, NInf => NaN
  end.

Definition cos (a : t) : t :=
  match a with
  | Fin x => Fin (Rtrigo_def.cos x)
  | _ => NaN
  end.

Definition sin (a : t) : t :=
  match a with
  | Fin x => Fin (Rtrigo_def.sin x)
  | _ => NaN
  end.

End Float64.

(** [particle_trajectory] when [B] is handed over as a NumPy [float64]
    scalar instead of a Python float.  The source text is the same; the
    operators [*] and [/] that involve [B] are then NumPy's, so [r] and
    [omega] are [float64] scalars and nothing raises on [B = 0].  The
    other arguments are Python floats as before. *)
Module LorentzFloat64.

Definition particle_trajectory
           (B : Float64.t) (v_perp v_parallel t_max : R) (num_points : Z)
  : Py.result (list Float64.t * list Float64.t * list Float64.t) :=
  let r := Float64.div (Float64.Fin (Lorentz.m * v_perp))
                       (Float64.mul (Float64.Fin Lorentz.q) B) in
  let omega := Float64.div (Float64.mul (Float64.Fin Lorentz.q) B)
                           (Float64.Fin Lorentz.m) in
  t <- Np.linspace 0 t_max num_points ;;
  let x := map (fun e => Float64.mul r
                  (Float64.cos (Float64.mul omega (Float64.Fin e)))) t in
  let y := map (fun e => Float64.mul r
                  (Float64.sin (Float64.mul omega (Float64.Fin e)))) t in
  let z := map (fun e => Float64.Fin (v_parallel * e)) t in
  Py.Return (x, y, z).

End LorentzFloat64.

(* ================================================================== *)
(** * Faraday's law: [faraday_simulation] *)
(* ================================================================== *)

Module Faraday.

(** Time step in seconds. *)
Definition dt : R := 0.01.

(** The part of [faraday_simulation] up to the assignment of [flux]:
    the time grid and the flux through the coil at each grid time. *)
Definition flux_waveform (v A B0 L duration : R)
  : Py.result (Np.ndarray * Np.ndarray) :=
  let t := Np.arange 0 duration dt in
  let x := Np.smul v t in
  x0 <- Py.truediv L 2 ;;
  sigma <- Py.truediv L 10 ;;
  let B_field :=
    Np.smul B0 (Np.exp (Np.divs (Np.neg (Np.pows (Np.subs x x0) 2))
                                (2 * sigma ^ 2))) in
  let flux := Np.muls B_field A in
  Py.Return (t, flux).

(** One entry of [flux] as a function of the grid time it belongs to: the
    element-wise expression [B0 * exp(-((v*t - x0)**2) / (2*sigma**2)) * A]
    with [x0 = L/2] and [sigma = L/10] substituted.  Used to state what
    [flux_waveform] returns. *)
Definition flux_at (v A B0 L t : R) : R :=
  B0 * exp (- ((v * t - L / 2) ^ 2) / (2 * (L / 10) ^ 2)) * A.

(** [faraday_simulation]: the arrays [t], [flux] and [emf] that are plotted. *)
Definition faraday_simulation (v A B0 L N duration : R)
  : Py.result (Np.ndarray * Np.ndarray * Np.ndarray) :=
  '(t, flux) <- flux_waveform v A B0 L duration ;;
  g <- Np.gradient flux dt ;;
  let emf := Np.smul (- N) g in
  Py.Return (t, flux, emf).

End Faraday.

(* ================================================================== *)
(** * The plotting and widget layer *)
(* ================================================================== *)

(** The part of a matplotlib 3D axes that the notebook fills in with
    numbers: the plotted line, the scattered marker and the three axis
    limits.  Colours, labels, title and legend are text and styling and are
    not modelled.  The axes is threaded through the calls that update it. *)
Module Plt.

Record Axes3D : Type := {
  lines : list (Np.ndarray * Np.ndarray * Np.ndarray);
  markers : list (list R * list R * list R);
  xlim : option (R * R);
  ylim : option (R * R);
  zlim : option (R * R)
}.

(** [fig.add_subplot(111, projection='3d')]: a fresh axes. *)
Definition add_subplot : Axes3D :=
  {| lines := []; markers := []; xlim := None; ylim := None; zlim := None |}.

(** [ax.plot(x, y, z, ...)]. *)
Definition plot (x y z : Np.ndarray) (ax : Axes3D) : Axes3D :=
  {| lines := lines ax ++ [(x, y, z)]; markers := markers ax;
     xlim := xlim ax; ylim := ylim ax; zlim := zlim ax |}.

(** [ax.scatter(xs, ys, zs, ...)]. *)
Definition scatter (xs ys zs : list R) (ax : Axes3D) : Axes3D :=
  {| lines := lines ax; markers := markers ax ++ [(xs, ys, zs)];
     xlim := xlim ax; ylim := ylim ax; zlim := zlim ax |}.

(** [ax.set_xlim([lo, hi])] and its siblings: the pair the notebook passes
    is recorded.  What matplotlib does with that pair afterwards (it
    widens a range whose two ends coincide and refuses ends that are not
    finite) lies in the plotting library and is not modelled. *)
Definition set_xlim (lo hi : R) (ax : Axes3D) : Axes3D :=
  {| lines := lines ax; markers := markers ax;
     xlim := Some (lo, hi); ylim := ylim ax; zlim := zlim ax |}.

Definition set_ylim (lo hi : R) (ax : Axes3D) : Axes3D :=
  {| lines := lines ax; markers := markers ax;
     xlim := xlim ax; ylim := Some (lo, hi); zlim := zlim ax |}.

Definition set_zlim (lo hi : R) (ax : Axes3D) : Axes3D :=
  {| lines := lines ax; markers := markers ax;
     xlim := xlim ax; ylim := ylim ax; zlim := Some (lo, hi) |}.

End Plt.

(** An ipywidgets [FloatSlider]: the values it can hand to the callback lie
    between [min] and [max]; [value] is the one it starts with. *)
Module Widgets.

Record FloatSlider : Type := {
  min : R;
  max : R;
  step : R;
  value : R
}.

Definition admits (s : FloatSlider) (x : R) : Prop :=
  min s <= x <= max s.

End Widgets.

Module LorentzUI.

(** [plot_trajectory]: the axes it draws, as far as [Plt.Axes3D] records
    it.  [particle_trajectory] is called with its default [t_max] and
    [num_points]. *)
Definition plot_trajectory (B v_perp v_parallel : R) : Py.result Plt.Axes3D :=
  '(x, y, z) <- Lorentz.particle_trajectory B v_perp v_parallel
                  Lorentz.default_t_max Lorentz.default_num_points ;;
  let ax := Plt.add_subplot in
  let ax := Plt.plot x y z ax in
  let ax := Plt.scatter [0] [0] [0] ax in
  mx <- Np.amax (Np.abs x) ;;
  my <- Np.amax (Np.abs y) ;;
  mz <- Np.amax (Np.abs z) ;;
  let max_range := Rmax (Rmax mx my) mz * 1.2 in
  let ax := Plt.set_xlim (- max_range) max_range ax in
  let ax := Plt.set_ylim (- max_range) max_range ax in
  zm <- Np.amax z ;;
  let ax := Plt.set_zlim 0 (Rmax zm 1e-3) ax in
  Py.Return ax.

(** Closed forms, used to state what [plot_trajectory] computes: the
    half-width of the x and y ranges and the top of the z range. *)
Definition half_width (B v_perp v_parallel : R) : R :=
  Rmax (Rabs (Lorentz.m * v_perp / (Lorentz.q * B)))
       (Rabs v_parallel * Lorentz.default_t_max) * 1.2.

Definition z_top (v_parallel : R) : R :=
  Rmax (v_parallel * Lorentz.default_t_max) 1e-3.

Definition B_slider : Widgets.FloatSlider :=
  {| Widgets.min := 1e-4; Widgets.max := 5e-3;
     Widgets.step := 1e-4; Widgets.value := 1e-3 |}.

Definition v_perp_slider : Widgets.FloatSlider :=
  {| Widgets.min := 1e5; Widgets.max := 5e6;
     Widgets.step := 1e5; Widgets.value := 1e6 |}.

Definition v_parallel_slider : Widgets.FloatSlider :=
  {| Widgets.min := 0; Widgets.max := 1e6;
     Widgets.step := 1e4; Widgets.value := 2e5 |}.

End LorentzUI.

Module FaradayUI.

(** The sliders handed to [interact(faraday_simulation, ...)], named after
    the keyword they are bound to. *)
Definition v_slider : Widgets.FloatSlider :=
  {| Widgets.min := 0.1; Widgets.max := 5.0;
     Widgets.step := 0.1; Widgets.value := 1.0 |}.

Definition A_slider : Widgets.FloatSlider :=
  {| Widgets.min := 0.1; Widgets.max := 5.0;
     Widgets.step := 0.1; Widgets.value := 1.0 |}.

Definition B0_slider : Widgets.FloatSlider :=
  {| Widgets.min := 0.1; Widgets.max := 10.0;
     Widgets.step := 0.1; Widgets.value := 1.0 |}.

Definition L_slider : Widgets.FloatSlider :=
  {| Widgets.min := 0.1; Widgets.max := 10.0;
     Widgets.step := 0.1; Widgets.value := 1.0 |}.

Definition N_slider : Widgets.FloatSlider :=
  {| Widgets.min := 1; Widgets.max := 500;
     Widgets.step := 1; Widgets.value := 100 |}.

Definition duration_slider : Widgets.FloatSlider :=
  {| Widgets.min := 1.0; Widgets.max := 10.0;
     Widgets.step := 0.5; Widgets.value := 2.0 |}.

End FaradayUI.

(* ================================================================== *)
(** * Facts about the NumPy model *)
(* ================================================================== *)

Section NpFacts.

Lemma nth_map_seq (f : nat -> R) (n i : nat) :
  (i < n)%nat -> nth i (map f (seq 0 n)) 0 = f i.
Proof.
  intros Hi.
  rewrite (nth_indep _ 0 (f 0%nat)) by (rewrite length_map, length_seq; exact Hi).
  rewrite map_nth, seq_nth by exact Hi.
  reflexivity.
Qed.

Lemma nth_map_R (f : R -> R) (a : Np.ndarray) (i : nat) :
  (i < length a)%nat -> nth i (map f a) 0 = f (nth i a 0).
Proof.
  intros Hi.
  rewrite (nth_indep _ 0 (f 0)) by (rewrite length_map; exact Hi).
  apply map_nth.
Qed.

Lemma ceil_bounds (x : R) : IZR (Np.ceil x) - 1 < x <= IZR (Np.ceil x).
Proof.
  unfold Np.ceil.
  destruct (archimed (- x)) as [Hgt Hle].
  rewrite minus_IZR.
  lra.
Qed.

Lemma ceil_unique (x : R) (z : Z) :
  IZR z - 1 < x <= IZR z -> Np.ceil x = z.
Proof.
  intros [Hlo Hhi].
  unfold Np.ceil.
  assert (Hup : (1 - z)%Z = up (- x)).
  { apply tech_up; rewrite minus_IZR; lra. }
  lia.
Qed.

Lemma ceil_IZR (z : Z) : Np.ceil (IZR z) = z.
Proof. apply ceil_unique; lra. Qed.

(** An index is below [ceil x] exactly when it is below [x]. *)
Lemma lt_ceil_iff (x : R) (i : nat) :
  (i < Z.to_nat (Np.ceil x))%nat <-> INR i < x.
Proof.
  destruct (ceil_bounds x) as [Hlo Hhi].
  rewrite INR_IZR_INZ.
  split; intros H.
  - assert (Hz : (Z.of_nat i < Np.ceil x)%Z) by lia.
    assert (Hz' : (Z.of_nat i <= Np.ceil x - 1)%Z) by lia.
    apply IZR_le in Hz'. rewrite minus_IZR in Hz'. lra.
  - assert (Hz : (Z.of_nat i < Np.ceil x)%Z).
    { apply lt_IZR. lra. }
    lia.
Qed.

Lemma length_arange (start stop step : R) :
  length (Np.arange start stop step)
  = Z.to_nat (Np.ceil ((stop - start) / step)).
Proof. unfold Np.arange. now rewrite length_map, length_seq. Qed.

Lemma nth_arange (start stop step : R) (i : nat) :
  (i < length (Np.arange start stop step))%nat ->
  nth i (Np.arange start stop step) 0 = start + INR i * step.
Proof.
  rewrite length_arange. intros Hi.
  unfold Np.arange. now rewrite nth_map_seq.
Qed.

Lemma length_iota (n : nat) : length (Np.iota n) = n.
Proof. unfold Np.iota. now rewrite length_map, length_seq. Qed.

Lemma nth_iota (n i : nat) : (i < n)%nat -> nth i (Np.iota n) 0 = INR i.
Proof. intros Hi. unfold Np.iota. now rewrite nth_map_seq. Qed.

Lemma length_removelast_R (l : Np.ndarray) :
  length (removelast l) = (length l - 1)%nat.
Proof.
  rewrite removelast_firstn_len, length_firstn. lia.
Qed.

Lemma length_set_last (y : Np.ndarray) (v : R) :
  length (Np.set_last y v) = length y.
Proof.
  destruct y as [|a y]; [reflexivity|].
  unfold Np.set_last.
  rewrite length_app, length_removelast_R. simpl. lia.
Qed.

Lemma nth_set_last (y : Np.ndarray) (v : R) (i : nat) :
  (i < length y)%nat ->
  nth i (Np.set_last y v) 0
  = if (i =? length y - 1)%nat then v else nth i y 0.
Proof.
  intros Hi.
  destruct y as [|a y]; [simpl in Hi; lia|].
  unfold Np.set_last.
  set (l := a :: y) in *.
  assert (Hne : l <> []) by discriminate.
  assert (Hlen : length (removelast l) = (length l - 1)%nat)
    by apply length_removelast_R.
  destruct (Nat.eqb_spec i (length l - 1)) as [->|Hneq].
  - rewrite app_nth2 by lia.
    rewrite Hlen, Nat.sub_diag. reflexivity.
  - rewrite app_nth1 by lia.
    rewrite (app_removelast_last 0 Hne) at 2.
    rewrite app_nth1 by lia. reflexivity.
Qed.

(** [np.linspace] returns [num] samples, the [i]-th at
    [start + i * (stop - start)/(num - 1)]. *)
Lemma linspace_samples (start stop : R) (num : Z) :
  (0 <= num)%Z ->
  exists t,
    Np.linspace start stop num = Py.Return t
    /\ length t = Z.to_nat num
    /\ forall i, (i < Z.to_nat num)%nat ->
         nth i t 0 = start + INR i * ((stop - start) / IZR (num - 1)).
Proof.
  intros Hnum.
  unfold Np.linspace.
  destruct (Z.ltb_spec num 0) as [Hneg|_]; [lia|].
  eexists; split; [reflexivity|].
  set (n := Z.to_nat num).
  destruct (Z.ltb_spec 0 (num - 1)) as [Hdiv|Hdiv].
  - (* at least two samples: the end point is written last *)
    destruct (Z.ltb_spec 1 num) as [_|Hle]; [|lia].
    assert (Hnz : IZR (num - 1) <> 0).
    { apply not_0_IZR. lia. }
    set (step := (stop - start) / IZR (num - 1)).
    set (y := if Req_dec_T step 0
              then Np.muls (Np.divs (Np.iota n) (IZR (num - 1)))
                           (stop - start)
              else Np.muls (Np.iota n) step).
    assert (Hy : length y = n
                 /\ forall i, (i < n)%nat -> nth i y 0 = INR i * step).
    { unfold y. destruct (Req_dec_T step 0) as [_|_].
      - unfold Np.muls, Np.divs. split.
        + now rewrite !length_map, length_iota.
        + intros i Hi.
          rewrite nth_map_R by (rewrite length_map, length_iota; exact Hi).
          rewrite nth_map_R by (rewrite length_iota; exact Hi).
          rewrite nth_iota by exact Hi.
          unfold step. field. exact Hnz.
      - unfold Np.muls. split.
        + now rewrite length_map, length_iota.
        + intros i Hi.
          rewrite nth_map_R by (rewrite length_iota; exact Hi).
          now rewrite nth_iota. }
    destruct Hy as [Hly Hny].
    assert (Hla : length (Np.adds y start) = n).
    { unfold Np.adds. now rewrite length_map. }
    split.
    + now rewrite length_set_last.
    + intros i Hi.
      rewrite nth_set_last by (rewrite Hla; exact Hi).
      rewrite Hla.
      destruct (Nat.eqb_spec i (n - 1)) as [->|Hneq].
      * assert (HI : INR (n - 1) = IZR (num - 1)).
        { rewrite INR_IZR_INZ. f_equal. unfold n. lia. }
        rewrite HI. unfold step. field. exact Hnz.
      * unfold Np.adds.
        rewrite nth_map_R by (rewrite Hly; exact Hi).
        rewrite (Hny i Hi). ring.
  - (* zero or one sample *)
    destruct (Z.ltb_spec 1 num) as [Hgt|_]; [lia|].
    split.
    + unfold Np.adds, Np.muls. now rewrite !length_map, length_iota.
    + intros i Hi.
      assert (Hi0 : i = 0%nat) by (unfold n in Hi; lia).
      subst i.
      unfold Np.adds, Np.muls.
      rewrite nth_map_R by (rewrite length_map, length_iota; exact Hi).
      rewrite nth_map_R by (rewrite length_iota; exact Hi).
      rewrite nth_iota by exact Hi.
      simpl. ring.
Qed.

Lemma linspace_negative (start stop : R) (num : Z) :
  (num < 0)%Z -> Np.linspace start stop num = Py.Raise Py.ValueError.
Proof.
  intros Hneg. unfold Np.linspace.
  destruct (Z.ltb_spec num 0) as [_|Hge]; [reflexivity|lia].
Qed.

End NpFacts.

(* ================================================================== *)
(** * The trajectory generator *)
(* ================================================================== *)

Section LorentzFacts.

Import Lorentz.

Lemma q_pos : 0 < q.
Proof. unfold q. lra. Qed.

Lemma m_pos : 0 < m.
Proof. unfold m. lra. Qed.

Lemma qB_nonzero (B : R) : B <> 0 -> q * B <> 0.
Proof.
  intros HB Hz. apply Rmult_integral in Hz.
  destruct Hz as [Hq|HB']; [pose proof q_pos; lra | contradiction].
Qed.

Lemma radius_nonzero_field (B v_perp : R) :
  B <> 0 -> radius B v_perp = Py.Return (m * v_perp / (q * B)).
Proof.
  intros HB. unfold radius, Py.truediv.
  destruct (Req_dec_T (q * B) 0) as [Hz|_]; [|reflexivity].
  exfalso. exact (qB_nonzero B HB Hz).
Qed.


Lemma angular_velocity_value (B : R) :
  angular_velocity B = Py.Return (q * B / m).
Proof.
  unfold angular_velocity, Py.truediv.
  destruct (Req_dec_T m 0) as [Hz|_]; [|reflexivity].
  exfalso. pose proof m_pos. lra.
Qed.

(** With a nonzero field and a non-negative sample count the generator
    returns, and its three arrays are the closed forms over the time grid. *)
Lemma particle_trajectory_returns
      (B v_perp v_parallel t_max : R) (num_points : Z) :
  B <> 0 -> (0 <= num_points)%Z ->
  exists t,
    Np.linspace 0 t_max num_points = Py.Return t
    /\ length t = Z.to_nat num_points
    /\ (forall i, (i < Z.to_nat num_points)%nat ->
          nth i t 0 = INR i * (t_max / IZR (num_points - 1)))
    /\ particle_trajectory B v_perp v_parallel t_max num_points
       = Py.Return
           (Np.smul (m * v_perp / (q * B)) (Np.cos (Np.smul (q * B / m) t)),
            Np.smul (m * v_perp / (q * B)) (Np.sin (Np.smul (q * B / m) t)),
            Np.smul v_parallel t).
Proof.
  intros HB Hnum.
  destruct (linspace_samples 0 t_max num_points Hnum) as (t & Ht & Hlen & Hnth).
  exists t. repeat split; try assumption.
  - intros i Hi. rewrite (Hnth i Hi). rewrite Rminus_0_r. ring.
  - unfold particle_trajectory.
    rewrite (radius_nonzero_field B v_perp HB), angular_velocity_value, Ht.
    reflexivity.
Qed.

Lemma nth_smul (c : R) (a : Np.ndarray) (i : nat) :
  (i < length a)%nat -> nth i (Np.smul c a) 0 = c * nth i a 0.
Proof. intros Hi. unfold Np.smul. now rewrite nth_map_R. Qed.

Lemma length_smul (c : R) (a : Np.ndarray) :
  length (Np.smul c a) = length a.
Proof. apply length_map. Qed.

Lemma nth_cos (a : Np.ndarray) (i : nat) :
  (i < length a)%nat -> nth i (Np.cos a) 0 = cos (nth i a 0).
Proof. intros Hi. unfold Np.cos. now rewrite nth_map_R. Qed.

Lemma nth_sin (a : Np.ndarray) (i : nat) :
  (i < length a)%nat -> nth i (Np.sin a) 0 = sin (nth i a 0).
Proof. intros Hi. unfold Np.sin. now rewrite nth_map_R. Qed.

Lemma length_cos (a : Np.ndarray) : length (Np.cos a) = length a.
Proof. apply length_map. Qed.

Lemma length_sin (a : Np.ndarray) : length (Np.sin a) = length a.
Proof. apply length_map. Qed.

(** The [i]-th entries of the three coordinate arrays. *)
Lemma nth_helix_x (r omega : R) (t : Np.ndarray) (i : nat) :
  (i < length t)%nat ->
  nth i (Np.smul r (Np.cos (Np.smul omega t))) 0
  = r * cos (omega * nth i t 0).
Proof.
  intros Hi.
  rewrite nth_smul by (rewrite length_cos, length_smul; exact Hi).
  rewrite nth_cos by (rewrite length_smul; exact Hi).
  now rewrite nth_smul.
Qed.

Lemma nth_helix_y (r omega : R) (t : Np.ndarray) (i : nat) :
  (i < length t)%nat ->
  nth i (Np.smul r (Np.sin (Np.smul omega t))) 0
  = r * sin (omega * nth i t 0).
Proof.
  intros Hi.
  rewrite nth_smul by (rewrite length_sin, length_smul; exact Hi).
  rewrite nth_sin by (rewrite length_smul; exact Hi).
  now rewrite nth_smul.
Qed.

(** ** Zero field *)



(** With a nonzero field the two readings of the source agree: the
    [float64] run returns the arrays of the Python-float run. *)
Lemma particle_trajectory_float64_nonzero_field
      (B v_perp v_parallel t_max : R) (num_points : Z) :
  B <> 0 ->
  LorentzFloat64.particle_trajectory (Float64.Fin B) v_perp v_parallel
    t_max num_points
  = match particle_trajectory B v_perp v_parallel t_max num_points with
    | Py.Return (x, y, z) =>
        Py.Return (map Float64.Fin x, map Float64.Fin y, map Float64.Fin z)
    | Py.Raise e => Py.Raise e
    end.
Proof.
  intros HB.
  unfold LorentzFloat64.particle_trajectory, particle_trajectory.
  rewrite (radius_nonzero_field B v_perp HB), angular_velocity_value.
  simpl.
  destruct (Req_dec_T (q * B) 0) as [Hz|_];
    [exfalso; exact (qB_nonzero B HB Hz)|].
  destruct (Req_dec_T m 0) as [Hz|_]; [exfalso; pose proof m_pos; lra|].
  destruct (Np.linspace 0 t_max num_points) as [t|e]; simpl; [|reflexivity].
  unfold Np.smul, Np.cos, Np.sin. rewrite !map_map. reflexivity.
Qed.



(** ** The cylinder *)

(** C5. For a nonzero field every sample lies at squared distance [r^2]
    from the z-axis, [r = m*v_perp/(q*B)]: [x_i^2 + y_i^2 = r^2] at each of the
    [num_points] samples. *)
Theorem particle_trajectory_on_cylinder
        (B v_perp v_parallel t_max : R) (num_points : Z) :
  B <> 0 -> (0 <= num_points)%Z ->
  exists x y z,
    particle_trajectory B v_perp v_parallel t_max num_points
    = Py.Return (x, y, z)
    /\ length x = Z.to_nat num_points
    /\ length y = Z.to_nat num_points
    /\ length z = Z.to_nat num_points
    /\ forall i, (i < Z.to_nat num_points)%nat ->
         Rsqr (nth i x 0) + Rsqr (nth i y 0) = Rsqr (m * v_perp / (q * B)).
Proof.
  intros HB Hnum.
  destruct (particle_trajectory_returns B v_perp v_parallel t_max num_points
              HB Hnum) as (t & _ & Hlen & _ & Hrun).
  do 3 eexists. split; [exact Hrun|].
  rewrite !length_smul, length_cos, length_sin, !length_smul.
  repeat split; try exact Hlen.
  intros i Hi. rewrite <- Hlen in Hi.
  rewrite nth_helix_x, nth_helix_y by exact Hi.
  set (a := q * B / m * nth i t 0).
  set (r := m * v_perp / (q * B)).
  pose proof (sin2_cos2 a) as Hsc.
  unfold Rsqr in *. nra.
Qed.

Lemma particle_trajectory_on_cylinder_witness :
  exists x y z,
    particle_trajectory 1e-3 1e6 2e5 default_t_max default_num_points
    = Py.Return (x, y, z)
    /\ length x = 500%nat
    /\ length y = 500%nat
    /\ length z = 500%nat
    /\ forall i, (i < 500)%nat ->
         Rsqr (nth i x 0) + Rsqr (nth i y 0) = Rsqr (m * 1e6 / (q * 1e-3)).
Proof.
  apply (particle_trajectory_on_cylinder 1e-3 1e6 2e5 default_t_max
           default_num_points).
  - lra.
  - unfold default_num_points. lia.
Defined.

(** ** Drift along the field *)

(** C6. For a nonzero field the z array is the time grid scaled by
    [v_parallel]: [z_i = v_parallel * t_i] at every sample, where [t] is the
    grid [np.linspace(0, t_max, num_points)], and nothing is added to it. *)
Theorem particle_trajectory_z_linear
        (B v_perp v_parallel t_max : R) (num_points : Z) :
  B <> 0 -> (0 <= num_points)%Z ->
  exists t x y z,
    Np.linspace 0 t_max num_points = Py.Return t
    /\ particle_trajectory B v_perp v_parallel t_max num_points
       = Py.Return (x, y, z)
    /\ length t = Z.to_nat num_points
    /\ length z = Z.to_nat num_points
    /\ forall i, (i < Z.to_nat num_points)%nat ->
         nth i z 0 = v_parallel * nth i t 0
         /\ nth i t 0 = INR i * (t_max / IZR (num_points - 1)).
Proof.
  intros HB Hnum.
  destruct (particle_trajectory_returns B v_perp v_parallel t_max num_points
              HB Hnum) as (t & Ht & Hlen & Hnth & Hrun).
  exists t. do 3 eexists.
  split; [exact Ht|]. split; [exact Hrun|].
  rewrite length_smul.
  repeat split; try exact Hlen.
  - apply nth_smul. now rewrite Hlen.
  - now apply Hnth.
Qed.

Lemma particle_trajectory_z_linear_witness :
  exists t x y z,
    Np.linspace 0 default_t_max default_num_points = Py.Return t
    /\ particle_trajectory 1e-3 1e6 2e5 default_t_max default_num_points
       = Py.Return (x, y, z)
    /\ length t = 500%nat
    /\ length z = 500%nat
    /\ forall i, (i < 500)%nat ->
         nth i z 0 = 2e5 * nth i t 0
         /\ nth i t 0 = INR i * (default_t_max / 499).
Proof.
  apply (particle_trajectory_z_linear 1e-3 1e6 2e5 default_t_max
           default_num_points).
  - lra.
  - unfold default_num_points. lia.
Defined.

(** C7. For a nonzero field, [v_parallel >= 0] and [t_max >= 0] (the default
    [1e-6] is), the z array never decreases: [z_i <= z_{i+1}] for every pair
    of consecutive samples. *)
Theorem particle_trajectory_z_monotone
        (B v_perp v_parallel t_max : R) (num_points : Z) :
  B <> 0 -> (0 <= num_points)%Z -> 0 <= v_parallel -> 0 <= t_max ->
  exists x y z,
    particle_trajectory B v_perp v_parallel t_max num_points
    = Py.Return (x, y, z)
    /\ length z = Z.to_nat num_points
    /\ forall i, (S i < Z.to_nat num_points)%nat ->
         nth i z 0 <= nth (S i) z 0.
Proof.
  intros HB Hnum Hv Ht0.
  destruct (particle_trajectory_returns B v_perp v_parallel t_max num_points
              HB Hnum) as (t & _ & Hlen & Hnth & Hrun).
  do 3 eexists. split; [exact Hrun|].
  rewrite length_smul. split; [exact Hlen|].
  intros i Hi.
  rewrite !nth_smul by (rewrite Hlen; lia).
  rewrite (Hnth i) by lia. rewrite (Hnth (S i) Hi).
  rewrite S_INR.
  assert (Hdiv : 0 < IZR (num_points - 1)).
  { apply IZR_lt. lia. }
  assert (Hstep : 0 <= t_max / IZR (num_points - 1)).
  { unfold Rdiv. apply Rmult_le_pos; [exact Ht0|].
    left. now apply Rinv_0_lt_compat. }
  pose proof (pos_INR i) as Hi0.
  apply Rmult_le_compat_l; [exact Hv|]. nra.
Qed.

Lemma particle_trajectory_z_monotone_witness :
  exists x y z,
    particle_trajectory 1e-3 1e6 2e5 default_t_max default_num_points
    = Py.Return (x, y, z)
    /\ length z = 500%nat
    /\ forall i, (S i < 500)%nat -> nth i z 0 <= nth (S i) z 0.
Proof.
  apply (particle_trajectory_z_monotone 1e-3 1e6 2e5 default_t_max
           default_num_points).
  - lra.
  - unfold default_num_points. lia.
  - lra.
  - unfold default_t_max. lra.
Defined.

(** ** Radius and angular velocity *)

(** C9. For a nonzero field the radius is [r = m*v_perp/(q*B)] and the
    angular velocity is [omega = q*B/m], with [q = 1.6e-19] and
    [m = 9.11e-31]; these are the amplitude and the angular rate of the
    returned x and y arrays.  For [B = 1e-3], [v_perp = 1e6] the radius is
    [9.11e-31*1e6/(1.6e-19*1e-3) = 5.69375e-3], which is 5.69e-3 to three
    digits. *)
Theorem particle_trajectory_radius_omega
        (B v_perp v_parallel t_max : R) (num_points : Z) :
  B <> 0 -> (0 <= num_points)%Z ->
  q = 1.6e-19 /\ m = 9.11e-31
  /\ radius B v_perp = Py.Return (m * v_perp / (q * B))
  /\ angular_velocity B = Py.Return (q * B / m)
  /\ (exists t x y z,
        Np.linspace 0 t_max num_points = Py.Return t
        /\ particle_trajectory B v_perp v_parallel t_max num_points
           = Py.Return (x, y, z)
        /\ forall i, (i < Z.to_nat num_points)%nat ->
             nth i x 0
             = m * v_perp / (q * B) * cos (q * B / m * nth i t 0)
             /\ nth i y 0
                = m * v_perp / (q * B) * sin (q * B / m * nth i t 0))
  /\ radius 1e-3 1e6 = Py.Return (9.11e-31 * 1e6 / (1.6e-19 * 1e-3))
  /\ 9.11e-31 * 1e6 / (1.6e-19 * 1e-3) = 5.69375e-3
  /\ Rabs (9.11e-31 * 1e6 / (1.6e-19 * 1e-3) - 5.69e-3) < 0.005e-3.
Proof.
  intros HB Hnum.
  split; [reflexivity|]. split; [reflexivity|].
  split; [exact (radius_nonzero_field B v_perp HB)|].
  split; [exact (angular_velocity_value B)|].
  split.
  { destruct (particle_trajectory_returns B v_perp v_parallel t_max
                num_points HB Hnum) as (t & Ht & Hlen & _ & Hrun).
    exists t. do 3 eexists.
    split; [exact Ht|]. split; [exact Hrun|].
    intros i Hi. rewrite <- Hlen in Hi.
    split; [now apply nth_helix_x | now apply nth_helix_y]. }
  split.
  { rewrite radius_nonzero_field by lra. reflexivity. }
  split; [lra|].
  apply Rabs_def1; lra.
Qed.

Lemma particle_trajectory_radius_omega_witness :
  radius 1e-3 1e6 = Py.Return (m * 1e6 / (q * 1e-3))
  /\ angular_velocity 1e-3 = Py.Return (q * 1e-3 / m).
Proof.
  destruct (particle_trajectory_radius_omega 1e-3 1e6 2e5 default_t_max
              default_num_points) as (_ & _ & Hr & Hw & _).
  - lra.
  - unfold default_num_points. lia.
  - split; [exact Hr | exact Hw].
Defined.

(** ** Starting point *)

(** C10, as stated, fails for [v_perp = 0]: the radius is then 0 and the
    first sample is the origin itself. *)
Lemma particle_trajectory_first_sample_at_origin :
  1e-3 <> 0
  /\ exists x y z,
       particle_trajectory 1e-3 0 2e5 default_t_max default_num_points
       = Py.Return (x, y, z)
       /\ hd_error x = Some 0
       /\ hd_error y = Some 0
       /\ hd_error z = Some 0.
Proof.
  split; [lra|].
  assert (HB : 1e-3 <> 0) by lra.
  assert (Hn : (0 <= default_num_points)%Z)
    by (unfold default_num_points; lia).
  destruct (particle_trajectory_returns 1e-3 0 2e5 default_t_max
              default_num_points HB Hn) as (t & _ & Hlen & Hnth & Hrun).
  change (Z.to_nat default_num_points) with 500%nat in *.
  assert (Hpos : (0 < 500)%nat) by lia.
  specialize (Hnth 0%nat Hpos).
  destruct t as [|t0 t']; [simpl in Hlen; lia|].
  simpl in Hnth. rewrite Rmult_0_l in Hnth. subst t0.
  do 3 eexists. split; [exact Hrun|].
  simpl. unfold Rdiv.
  rewrite !Rmult_0_r, !Rmult_0_l. repeat split.
Qed.

(** C10 (amended). For a nonzero field and at least one sample, the first
    sample is [(r, 0, 0)] with [r = m*v_perp/(q*B)]: the grid starts at
    [t_0 = 0], so the trajectory starts on the x-axis at signed distance
    [r] from the origin.  That point is the origin exactly when
    [v_perp = 0]; for every other [v_perp] it is away from the origin. *)
Theorem particle_trajectory_first_sample
        (B v_perp v_parallel t_max : R) (num_points : Z) :
  B <> 0 -> (1 <= num_points)%Z ->
  exists x y z,
    particle_trajectory B v_perp v_parallel t_max num_points
    = Py.Return (x, y, z)
    /\ hd_error x = Some (m * v_perp / (q * B))
    /\ hd_error y = Some 0
    /\ hd_error z = Some 0
    /\ (v_perp <> 0 -> hd_error x <> Some 0)
    /\ (v_perp = 0 -> hd_error x = Some 0).
Proof.
  intros HB Hnum.
  assert (Hnum0 : (0 <= num_points)%Z) by lia.
  destruct (particle_trajectory_returns B v_perp v_parallel t_max num_points
              HB Hnum0) as (t & _ & Hlen & Hnth & Hrun).
  assert (Hpos : (0 < Z.to_nat num_points)%nat) by lia.
  specialize (Hnth 0%nat Hpos).
  destruct t as [|t0 t']; [simpl in Hlen; lia|].
  simpl in Hnth. rewrite Rmult_0_l in Hnth. subst t0.
  do 3 eexists. split; [exact Hrun|].
  simpl. rewrite !Rmult_0_r, cos_0, sin_0, !Rmult_0_r, Rmult_1_r.
  do 3 (split; [reflexivity|]).
  split.
  - intros Hv Heq. injection Heq as Heq.
    assert (Hqb : q * B <> 0) by exact (qB_nonzero B HB).
    pose proof m_pos as Hm.
    assert (Hr : m * v_perp / (q * B) <> 0).
    { unfold Rdiv. apply Rmult_integral_contrapositive_currified.
      - apply Rmult_integral_contrapositive_currified; lra.
      - now apply Rinv_neq_0_compat. }
    contradiction.
  - intros ->. f_equal. unfold Rdiv. ring.
Qed.

Lemma particle_trajectory_first_sample_witness :
  exists x y z,
    particle_trajectory 1e-3 1e6 2e5 default_t_max default_num_points
    = Py.Return (x, y, z)
    /\ hd_error x = Some (m * 1e6 / (q * 1e-3))
    /\ hd_error y = Some 0
    /\ hd_error z = Some 0
    /\ (1e6 <> 0 -> hd_error x <> Some 0)
    /\ (1e6 = 0 -> hd_error x = Some 0).
Proof.
  apply (particle_trajectory_first_sample 1e-3 1e6 2e5 default_t_max
           default_num_points).
  - lra.
  - unfold default_num_points. lia.
Defined.

End LorentzFacts.

(* ================================================================== *)
(** * The EMF generator *)
(* ================================================================== *)

Section FaradayFacts.

Import Faraday.

Lemma dt_pos : 0 < dt.
Proof. unfold dt. lra. Qed.

Lemma truediv_nonzero (a b : R) : b <> 0 -> Py.truediv a b = Py.Return (a / b).
Proof.
  intros Hb. unfold Py.truediv.
  destruct (Req_dec_T b 0) as [Hz|_]; [contradiction|reflexivity].
Qed.

(** The first stage never raises; it returns the grid and the flux on it. *)
Lemma flux_waveform_value (v A B0 L duration : R) :
  flux_waveform v A B0 L duration
  = Py.Return (Np.arange 0 duration dt,
               map (flux_at v A B0 L) (Np.arange 0 duration dt)).
Proof.
  unfold flux_waveform.
  rewrite !truediv_nonzero by lra.
  unfold Py.bind, Np.muls, Np.smul, Np.exp, Np.divs, Np.neg, Np.pows, Np.subs.
  rewrite !map_map. reflexivity.
Qed.

Lemma length_grid (duration : R) :
  length (Np.arange 0 duration dt) = Z.to_nat (Np.ceil (duration / dt)).
Proof. rewrite length_arange. now rewrite Rminus_0_r. Qed.

Lemma nth_grid (duration : R) (i : nat) :
  (i < length (Np.arange 0 duration dt))%nat ->
  nth i (Np.arange 0 duration dt) 0 = INR i * dt.
Proof. intros Hi. rewrite nth_arange by exact Hi. ring. Qed.

Lemma nth_flux (v A B0 L duration : R) (i : nat) :
  (i < length (Np.arange 0 duration dt))%nat ->
  nth i (map (flux_at v A B0 L) (Np.arange 0 duration dt)) 0
  = flux_at v A B0 L (INR i * dt).
Proof.
  intros Hi. rewrite nth_map_R by exact Hi. now rewrite nth_grid.
Qed.

(** More than one time step of duration gives at least two samples;
    at most one time step gives at most one. *)
Lemma grid_two_samples (duration : R) :
  dt < duration -> (2 <= length (Np.arange 0 duration dt))%nat.
Proof.
  intros Hd. pose proof dt_pos as Hdt.
  assert (H1 : (1 < length (Np.arange 0 duration dt))%nat).
  { rewrite length_grid. apply lt_ceil_iff. simpl.
    apply (Rmult_lt_reg_r dt); [exact Hdt|].
    unfold Rdiv. rewrite Rmult_assoc, Rinv_l by lra. lra. }
  lia.
Qed.

Lemma grid_one_sample (duration : R) :
  duration <= dt -> (length (Np.arange 0 duration dt) < 2)%nat.
Proof.
  intros Hd. pose proof dt_pos as Hdt.
  destruct (Nat.lt_ge_cases (length (Np.arange 0 duration dt)) 2)
    as [Hlt|Hge]; [exact Hlt|].
  exfalso.
  assert (H1 : (1 < length (Np.arange 0 duration dt))%nat) by lia.
  rewrite length_grid in H1. apply lt_ceil_iff in H1. simpl in H1.
  apply (Rmult_lt_compat_r dt) in H1; [|exact Hdt].
  unfold Rdiv in H1. rewrite Rmult_assoc, Rinv_l in H1 by lra. lra.
Qed.

(** [np.gradient] on an array of at least two elements. *)
Lemma gradient_returns (f : Np.ndarray) (dx : R) :
  (2 <= length f)%nat ->
  exists g,
    Np.gradient f dx = Py.Return g
    /\ length g = length f
    /\ nth 0 g 0 = (nth 1 f 0 - nth 0 f 0) / dx
    /\ nth (length f - 1) g 0
       = (nth (length f - 1) f 0 - nth (length f - 2) f 0) / dx
    /\ forall i, (0 < i < length f - 1)%nat ->
         nth i g 0 = (nth (i + 1) f 0 - nth (i - 1) f 0) / (2 * dx).
Proof.
  intros Hn. unfold Np.gradient.
  destruct (Nat.ltb_spec (length f) 2) as [Hlt|_]; [lia|].
  eexists. split; [reflexivity|].
  split; [now rewrite length_map, length_seq|].
  split; [|split].
  - rewrite nth_map_seq by lia. reflexivity.
  - rewrite nth_map_seq by lia.
    destruct (Nat.eqb_spec (length f - 1) 0) as [H0|_]; [lia|].
    now rewrite Nat.eqb_refl.
  - intros i Hi. rewrite nth_map_seq by lia.
    destruct (Nat.eqb_spec i 0) as [H0|_]; [lia|].
    destruct (Nat.eqb_spec i (length f - 1)) as [H1|_]; [lia|].
    reflexivity.
Qed.

Lemma gradient_too_small (f : Np.ndarray) (dx : R) :
  (length f < 2)%nat -> Np.gradient f dx = Py.Raise Py.ValueError.
Proof.
  intros Hn. unfold Np.gradient.
  destruct (Nat.ltb_spec (length f) 2) as [_|Hge]; [reflexivity|lia].
Qed.

(** The whole simulation: it returns exactly when the grid has at least
    two samples. *)
Lemma faraday_simulation_returns (v A B0 L N duration : R) :
  dt < duration ->
  exists g,
    Np.gradient (map (flux_at v A B0 L) (Np.arange 0 duration dt)) dt
    = Py.Return g
    /\ length g = length (Np.arange 0 duration dt)
    /\ faraday_simulation v A B0 L N duration
       = Py.Return (Np.arange 0 duration dt,
                    map (flux_at v A B0 L) (Np.arange 0 duration dt),
                    Np.smul (- N) g).
Proof.
  intros Hd.
  pose proof (grid_two_samples duration Hd) as Hn.
  destruct (gradient_returns
              (map (flux_at v A B0 L) (Np.arange 0 duration dt)) dt)
    as (g & Hg & Hlen & _).
  { now rewrite length_map. }
  exists g. split; [exact Hg|].
  split; [now rewrite Hlen, length_map|].
  unfold faraday_simulation.
  rewrite flux_waveform_value. simpl. rewrite Hg. reflexivity.
Qed.

Lemma faraday_simulation_raises (v A B0 L N duration : R) :
  duration <= dt ->
  faraday_simulation v A B0 L N duration = Py.Raise Py.ValueError.
Proof.
  intros Hd.
  pose proof (grid_one_sample duration Hd) as Hn.
  unfold faraday_simulation.
  rewrite flux_waveform_value. simpl.
  rewrite gradient_too_small by (now rewrite length_map).
  reflexivity.
Qed.

(** ** Flux *)

(** C2. For positive [v], [A], [B0], [L], [duration] the flux is evaluated
    at every grid sample: sample [i] exists for every [i] with
    [i*0.01 < duration] (sample 0 in particular), its time is
    [t_i = i*0.01], and its flux is
    [B0 * exp(-((v*t_i - L/2)^2) / (2*(L/10)^2)) * A]: a Gaussian in the
    magnet position [v*t_i], centred at [L/2] with spread [L/10], scaled by
    the coil area.  These are the time and flux arrays that the simulation
    returns, and it does return them when [duration > 0.01]. *)
Theorem faraday_flux_gaussian (v A B0 L duration : R) :
  0 < v -> 0 < A -> 0 < B0 -> 0 < L -> 0 < duration ->
  exists t flux,
    flux_waveform v A B0 L duration = Py.Return (t, flux)
    /\ length flux = length t
    /\ (1 <= length t)%nat
    /\ (forall i : nat, INR i * 0.01 < duration -> (i < length t)%nat)
    /\ (forall i, (i < length t)%nat ->
          nth i t 0 = INR i * 0.01
          /\ nth i flux 0
             = B0 * exp (- ((v * (INR i * 0.01) - L / 2) ^ 2)
                          / (2 * (L / 10) ^ 2)) * A)
    /\ (forall N w, faraday_simulation v A B0 L N duration = Py.Return w ->
          fst (fst w) = t /\ snd (fst w) = flux)
    /\ (0.01 < duration ->
        forall N, exists emf,
          faraday_simulation v A B0 L N duration = Py.Return (t, flux, emf)).
Proof.
  intros _ _ _ _ Hd.
  assert (Hidx : forall i : nat, INR i * 0.01 < duration ->
                   (i < length (Np.arange 0 duration dt))%nat).
  { intros i Hi. rewrite length_grid. apply lt_ceil_iff.
    unfold dt. lra. }
  do 2 eexists. split; [apply flux_waveform_value|].
  split; [apply length_map|].
  split.
  { assert (H0 : (0 < length (Np.arange 0 duration dt))%nat).
    { apply Hidx. simpl. lra. }
    lia. }
  split; [exact Hidx|].
  split; [|split].
  - intros i Hi. split.
    + now rewrite nth_grid.
    + now rewrite nth_flux.
  - intros N w Hw. unfold faraday_simulation in Hw.
    rewrite flux_waveform_value in Hw. simpl in Hw.
    destruct (Np.gradient _ dt) as [g|e]; simpl in Hw; [|discriminate].
    injection Hw as <-. split; reflexivity.
  - intros Hlong N.
    destruct (faraday_simulation_returns v A B0 L N duration Hlong)
      as (g & _ & _ & Hrun).
    eexists. exact Hrun.
Qed.

Lemma faraday_flux_gaussian_witness :
  exists t flux,
    flux_waveform 1 1 1 1 2 = Py.Return (t, flux)
    /\ length flux = length t
    /\ (1 <= length t)%nat
    /\ (forall i : nat, INR i * 0.01 < 2 -> (i < length t)%nat)
    /\ (forall i, (i < length t)%nat ->
          nth i t 0 = INR i * 0.01
          /\ nth i flux 0
             = 1 * exp (- ((1 * (INR i * 0.01) - 1 / 2) ^ 2)
                         / (2 * (1 / 10) ^ 2)) * 1)
    /\ (forall N w, faraday_simulation 1 1 1 1 N 2 = Py.Return w ->
          fst (fst w) = t /\ snd (fst w) = flux)
    /\ (0.01 < 2 ->
        forall N, exists emf,
          faraday_simulation 1 1 1 1 N 2 = Py.Return (t, flux, emf)).
Proof.
  apply (faraday_flux_gaussian 1 1 1 1 2); lra.
Defined.



(** ** Induced EMF *)

(** C3, as stated, fails for a positive duration of at most one time step:
    with [duration = 0.005] the grid has the single sample [t_0 = 0], and
    [np.gradient] refuses an array of fewer than two elements, so no EMF
    sequence is computed. *)
Lemma faraday_emf_single_sample_raises :
  0 < 0.005
  /\ length (Np.arange 0 0.005 dt) = 1%nat
  /\ faraday_simulation 1 1 1 1 100 0.005 = Py.Raise Py.ValueError
  /\ ~ (exists t flux emf,
          faraday_simulation 1 1 1 1 100 0.005 = Py.Return (t, flux, emf)).
Proof.
  assert (Hr : faraday_simulation 1 1 1 1 100 0.005 = Py.Raise Py.ValueError).
  { apply faraday_simulation_raises. unfold dt. lra. }
  split; [lra|]. split; [|split].
  - rewrite length_grid.
    rewrite (ceil_unique (0.005 / dt) 1); [reflexivity|].
    unfold dt. lra.
  - exact Hr.
  - intros (t & flux & emf & H). rewrite Hr in H. discriminate.
Qed.

(** C3 (amended). For positive inputs with [duration > dt], so that the
    grid has [n >= 2] samples, the EMF array is [-N] times the numerical
    gradient of the flux array with step [dt = 0.01]:
    [(flux_1 - flux_0)/dt] at the first sample,
    [(flux_{n-1} - flux_{n-2})/dt] at the last, and
    [(flux_{i+1} - flux_{i-1})/(2*dt)] at every interior sample. *)
Theorem faraday_emf_gradient (v A B0 L N duration : R) :
  0 < v -> 0 < A -> 0 < B0 -> 0 < L -> 0 < N -> 0.01 < duration ->
  exists t flux emf,
    faraday_simulation v A B0 L N duration = Py.Return (t, flux, emf)
    /\ flux_waveform v A B0 L duration = Py.Return (t, flux)
    /\ (2 <= length flux)%nat
    /\ length emf = length flux
    /\ nth 0 emf 0 = - N * ((nth 1 flux 0 - nth 0 flux 0) / 0.01)
    /\ nth (length flux - 1) emf 0
       = - N * ((nth (length flux - 1) flux 0
                 - nth (length flux - 2) flux 0) / 0.01)
    /\ forall i, (0 < i < length flux - 1)%nat ->
         nth i emf 0
         = - N * ((nth (i + 1) flux 0 - nth (i - 1) flux 0) / (2 * 0.01)).
Proof.
  intros _ _ _ _ _ Hd.
  pose proof (grid_two_samples duration Hd) as Hn.
  set (t := Np.arange 0 duration dt) in *.
  set (flux := map (flux_at v A B0 L) t).
  assert (Hlf : length flux = length t) by apply length_map.
  destruct (gradient_returns flux dt) as (g & Hg & Hlen & H0 & Hlast & Hmid).
  { rewrite Hlf. exact Hn. }
  exists t, flux, (Np.smul (- N) g).
  split.
  { unfold faraday_simulation. rewrite flux_waveform_value. simpl.
    fold t. fold flux. rewrite Hg. reflexivity. }
  split; [apply flux_waveform_value|].
  split; [rewrite Hlf; exact Hn|].
  split; [now rewrite length_smul|].
  change 0.01 with dt.
  split; [|split].
  - rewrite nth_smul by lia. now rewrite H0.
  - rewrite nth_smul by lia. now rewrite Hlast.
  - intros i Hi. rewrite nth_smul by lia. now rewrite (Hmid i Hi).
Qed.

Lemma faraday_emf_gradient_witness :
  exists t flux emf,
    faraday_simulation 1 1 1 1 100 2 = Py.Return (t, flux, emf)
    /\ flux_waveform 1 1 1 1 2 = Py.Return (t, flux)
    /\ (2 <= length flux)%nat
    /\ length emf = length flux
    /\ nth 0 emf 0 = - 100 * ((nth 1 flux 0 - nth 0 flux 0) / 0.01)
    /\ nth (length flux - 1) emf 0
       = - 100 * ((nth (length flux - 1) flux 0
                   - nth (length flux - 2) flux 0) / 0.01)
    /\ forall i, (0 < i < length flux - 1)%nat ->
         nth i emf 0
         = - 100 * ((nth (i + 1) flux 0 - nth (i - 1) flux 0) / (2 * 0.01)).
Proof.
  apply (faraday_emf_gradient 1 1 1 1 100 2); lra.
Defined.

(** ** Number of samples *)

(** C8, as stated, fails when [duration] is not a multiple of the time
    step: with [duration = 0.015] the waveform has two samples, while
    [duration/dt] is 1.5. *)
Lemma faraday_sample_count_not_quotient :
  0 < 0.015
  /\ exists t flux emf,
       faraday_simulation 1 1 1 1 100 0.015 = Py.Return (t, flux, emf)
       /\ length t = 2%nat /\ length flux = 2%nat /\ length emf = 2%nat
       /\ INR (length t) <> 0.015 / dt.
Proof.
  split; [lra|].
  destruct (faraday_simulation_returns 1 1 1 1 100 0.015)
    as (g & _ & Hlen & Hrun).
  { unfold dt. lra. }
  assert (Hn : length (Np.arange 0 0.015 dt) = 2%nat).
  { rewrite length_grid.
    rewrite (ceil_unique (0.015 / dt) 2); [reflexivity|].
    unfold dt. lra. }
  do 3 eexists. split; [exact Hrun|].
  rewrite length_smul, length_map, Hlen, Hn.
  repeat split.
  unfold dt. simpl. lra.
Qed.

(** C8 (amended). For a positive duration the waveform has one sample per
    grid index [i = 0 .. n-1], at time [i*dt] with [dt = 0.01].  The sample
    count [n] is a whole number with [duration/dt <= n <= duration/dt + 1]
    and every index [i < duration/dt] is on the grid: the count is
    [duration/dt] rounded up to a whole number, with room for the one
    extra sample that the rounded quotient can give, and not [duration/dt]
    itself.  The flux array has the same [n] entries, and when
    [duration > dt] so has the EMF array: one (time, flux, emf) triple per
    grid index. *)
Theorem faraday_sample_count (v A B0 L N duration : R) :
  0 < duration ->
  exists t flux,
    flux_waveform v A B0 L duration = Py.Return (t, flux)
    /\ length flux = length t
    /\ (1 <= length t)%nat
    /\ duration / 0.01 <= INR (length t) <= duration / 0.01 + 1
    /\ (forall i : nat, INR i < duration / 0.01 -> (i < length t)%nat)
    /\ (forall i : nat, (i < length t)%nat -> nth i t 0 = INR i * 0.01)
    /\ (0.01 < duration ->
        exists emf,
          faraday_simulation v A B0 L N duration = Py.Return (t, flux, emf)
          /\ length emf = length t).
Proof.
  intros Hd.
  do 2 eexists. split; [apply flux_waveform_value|].
  change 0.01 with dt.
  pose proof dt_pos as Hdt.
  assert (Hq : 0 < duration / dt).
  { unfold Rdiv. apply Rmult_lt_0_compat; [exact Hd|].
    now apply Rinv_0_lt_compat. }
  destruct (ceil_bounds (duration / dt)) as [Hlo Hhi].
  assert (Hc : (0 < Np.ceil (duration / dt))%Z).
  { apply lt_IZR. lra. }
  assert (Hn : INR (length (Np.arange 0 duration dt))
               = IZR (Np.ceil (duration / dt))).
  { rewrite length_grid, INR_IZR_INZ. f_equal. lia. }
  split; [apply length_map|].
  split; [rewrite length_grid; lia|].
  split; [rewrite Hn; lra|].
  split; [|split].
  - intros i Hi. rewrite length_grid. now apply lt_ceil_iff.
  - intros i Hi. now rewrite nth_grid.
  - intros Hlong.
    destruct (faraday_simulation_returns v A B0 L N duration Hlong)
      as (g & _ & Hlen & Hrun).
    eexists. split; [exact Hrun|].
    now rewrite length_smul.
Qed.

Lemma faraday_sample_count_witness :
  exists t flux,
    flux_waveform 1 1 1 1 2 = Py.Return (t, flux)
    /\ length flux = length t
    /\ (1 <= length t)%nat
    /\ 2 / 0.01 <= INR (length t) <= 2 / 0.01 + 1
    /\ (forall i : nat, INR i < 2 / 0.01 -> (i < length t)%nat)
    /\ (forall i : nat, (i < length t)%nat -> nth i t 0 = INR i * 0.01)
    /\ (0.01 < 2 ->
        exists emf,
          faraday_simulation 1 1 1 1 100 2 = Py.Return (t, flux, emf)
          /\ length emf = length t).
Proof.
  apply (faraday_sample_count 1 1 1 1 100 2). lra.
Defined.

End FaradayFacts.

(* ================================================================== *)
(** * Further properties of the trajectory generator *)
(* ================================================================== *)

Section LorentzMore.

Import Lorentz.

(** The grid times lie in [[0, t_max]], and the last one is [t_max]. *)
Lemma grid_time_bounds (t_max : R) (num_points : Z) (i : nat) :
  0 <= t_max -> (i < Z.to_nat num_points)%nat ->
  0 <= INR i * (t_max / IZR (num_points - 1)) <= t_max.
Proof.
  intros Ht Hi.
  destruct (Z.eq_dec num_points 1) as [H1|H1].
  - assert (i = 0%nat) by lia. subst i. simpl. rewrite Rmult_0_l. lra.
  - assert (Hdiv : 0 < IZR (num_points - 1)) by (apply IZR_lt; lia).
    assert (Hle : INR i <= IZR (num_points - 1)).
    { rewrite INR_IZR_INZ. apply IZR_le. lia. }
    pose proof (pos_INR i) as Hi0.
    assert (Hinv : 0 < / IZR (num_points - 1))
      by now apply Rinv_0_lt_compat.
    assert (Hfrac : INR i * / IZR (num_points - 1) <= 1).
    { apply (Rmult_le_reg_r (IZR (num_points - 1))); [exact Hdiv|].
      rewrite Rmult_assoc, Rinv_l by lra. lra. }
    assert (Hfrac0 : 0 <= INR i * / IZR (num_points - 1)).
    { apply Rmult_le_pos; lra. }
    unfold Rdiv.
    replace (INR i * (t_max * / IZR (num_points - 1)))
      with (t_max * (INR i * / IZR (num_points - 1))) by ring.
    split; [apply Rmult_le_pos; assumption|].
    rewrite <- (Rmult_1_r t_max) at 2.
    apply Rmult_le_compat_l; assumption.
Qed.






(** X4. Reversing the field mirrors the trajectory in the plane [x = 0]:
    with [-B] in place of [B] the x array changes sign and the y and z
    arrays are unchanged. *)
Theorem particle_trajectory_field_reversal
        (B v_perp v_parallel t_max : R) (num_points : Z) :
  B <> 0 -> (0 <= num_points)%Z ->
  exists x y z,
    particle_trajectory B v_perp v_parallel t_max num_points
    = Py.Return (x, y, z)
    /\ particle_trajectory (- B) v_perp v_parallel t_max num_points
       = Py.Return (Np.neg x, y, z).
Proof.
  intros HB Hn.
  assert (HB' : - B <> 0) by lra.
  destruct (particle_trajectory_returns B v_perp v_parallel t_max num_points
              HB Hn) as (t & Ht & _ & _ & Hrun).
  destruct (particle_trajectory_returns (- B) v_perp v_parallel t_max
              num_points HB' Hn) as (t' & Ht' & _ & _ & Hrun').
  rewrite Ht in Ht'. injection Ht' as <-.
  do 3 eexists. split; [exact Hrun|].
  rewrite Hrun'.
  pose proof (qB_nonzero B HB) as Hqb.
  pose proof m_pos as Hm.
  assert (Hr : m * v_perp / (q * - B) = - (m * v_perp / (q * B))).
  { field. split; [exact HB | pose proof q_pos; lra]. }
  assert (Hw : q * - B / m = - (q * B / m)).
  { field. lra. }
  rewrite Hr, Hw.
  unfold Np.neg, Np.smul, Np.cos, Np.sin.
  rewrite !map_map.
  assert (Hx : map (fun e => - (m * v_perp / (q * B))
                              * cos (- (q * B / m) * e)) t
               = map (fun e => - (m * v_perp / (q * B)
                                  * cos (q * B / m * e))) t).
  { apply map_ext. intros a.
    replace (- (q * B / m) * a) with (- (q * B / m * a)) by ring.
    rewrite cos_neg. ring. }
  assert (Hy : map (fun e => - (m * v_perp / (q * B))
                              * sin (- (q * B / m) * e)) t
               = map (fun e => m * v_perp / (q * B)
                               * sin (q * B / m * e)) t).
  { apply map_ext. intros a.
    replace (- (q * B / m) * a) with (- (q * B / m * a)) by ring.
    rewrite sin_neg. ring. }
  rewrite Hx, Hy. reflexivity.
Qed.

Lemma particle_trajectory_field_reversal_witness :
  exists x y z,
    particle_trajectory 1e-3 1e6 2e5 default_t_max default_num_points
    = Py.Return (x, y, z)
    /\ particle_trajectory (- (1e-3)) 1e6 2e5 default_t_max default_num_points
       = Py.Return (Np.neg x, y, z).
Proof.
  apply (particle_trajectory_field_reversal 1e-3 1e6 2e5 default_t_max
           default_num_points).
  - lra.
  - unfold default_num_points. lia.
Defined.





End LorentzMore.

(* ================================================================== *)
(** * The plotted axes *)
(* ================================================================== *)

Section PlotFacts.

Import Lorentz.
Import LorentzUI.

Lemma fold_left_Rmax_ge (l : list R) (e : R) : e <= fold_left Rmax l e.
Proof.
  revert e. induction l as [|a l IH]; intros e; simpl.
  - lra.
  - apply Rle_trans with (Rmax e a); [apply Rmax_l | apply IH].
Qed.

Lemma fold_left_Rmax_upper (l : list R) (e x : R) :
  In x l -> x <= fold_left Rmax l e.
Proof.
  revert e. induction l as [|a l IH]; intros e Hin; simpl in *.
  - contradiction.
  - destruct Hin as [->|Hin].
    + apply Rle_trans with (Rmax e x); [apply Rmax_r|apply fold_left_Rmax_ge].
    + now apply IH.
Qed.

Lemma fold_left_Rmax_in (l : list R) (e : R) :
  In (fold_left Rmax l e) (e :: l).
Proof.
  revert e. induction l as [|a l IH]; intros e; simpl.
  - now left.
  - destruct (IH (Rmax e a)) as [H|H].
    + unfold Rmax in H at 1. destruct (Rle_dec e a).
      * right. left. exact H.
      * left. exact H.
    + right. right. exact H.
Qed.

(** [a.max()] is the element of [a] that bounds all the others. *)
Lemma amax_unique (a : Np.ndarray) (M : R) :
  (forall i, (i < length a)%nat -> nth i a 0 <= M) ->
  (exists j, (j < length a)%nat /\ nth j a 0 = M) ->
  Np.amax a = Py.Return M.
Proof.
  intros Hub (j & Hj & HM).
  destruct a as [|e a']; [simpl in Hj; lia|].
  unfold Np.amax. f_equal.
  apply Rle_antisym.
  - destruct (In_nth _ _ 0 (fold_left_Rmax_in a' e)) as (k & Hk & Hnk).
    rewrite <- Hnk. now apply Hub.
  - assert (Hin : In M (e :: a')) by (rewrite <- HM; now apply nth_In).
    destruct Hin as [<-|Hin].
    + apply fold_left_Rmax_ge.
    + now apply fold_left_Rmax_upper.
Qed.

Lemma amax_bounds (a : Np.ndarray) :
  (0 < length a)%nat ->
  exists M, Np.amax a = Py.Return M
            /\ (forall i, (i < length a)%nat -> nth i a 0 <= M)
            /\ exists j, (j < length a)%nat /\ nth j a 0 = M.
Proof.
  intros Hlen.
  destruct a as [|e a']; [simpl in Hlen; lia|].
  exists (fold_left Rmax a' e). split; [reflexivity|]. split.
  - intros i Hi.
    assert (Hin : In (nth i (e :: a') 0) (e :: a')) by now apply nth_In.
    destruct Hin as [<-|Hin].
    + apply fold_left_Rmax_ge.
    + now apply fold_left_Rmax_upper.
  - destruct (In_nth _ _ 0 (fold_left_Rmax_in a' e)) as (k & Hk & Hnk).
    exists k. split; assumption.
Qed.

Lemma nth_abs (a : Np.ndarray) (i : nat) :
  (i < length a)%nat -> nth i (Np.abs a) 0 = Rabs (nth i a 0).
Proof. intros Hi. unfold Np.abs. now rewrite nth_map_R. Qed.

Lemma length_abs (a : Np.ndarray) : length (Np.abs a) = length a.
Proof. apply length_map. Qed.

Lemma abs_cos_le (r a : R) : Rabs (r * cos a) <= Rabs r.
Proof.
  rewrite Rabs_mult. rewrite <- (Rmult_1_r (Rabs r)) at 2.
  apply Rmult_le_compat_l; [apply Rabs_pos|].
  apply Rabs_le. apply COS_bound.
Qed.

Lemma abs_sin_le (r a : R) : Rabs (r * sin a) <= Rabs r.
Proof.
  rewrite Rabs_mult. rewrite <- (Rmult_1_r (Rabs r)) at 2.
  apply Rmult_le_compat_l; [apply Rabs_pos|].
  apply Rabs_le. apply SIN_bound.
Qed.

(** What [plot_trajectory] draws for a nonzero field. *)
Lemma plot_trajectory_axes (B v_perp v_parallel : R) :
  B <> 0 ->
  exists x y z,
    particle_trajectory B v_perp v_parallel default_t_max default_num_points
    = Py.Return (x, y, z)
    /\ length x = 500%nat /\ length y = 500%nat /\ length z = 500%nat
    /\ (forall i, (i < 500)%nat ->
          Rabs (nth i x 0) <= Rabs (m * v_perp / (q * B))
          /\ Rabs (nth i y 0) <= Rabs (m * v_perp / (q * B))
          /\ Rabs (nth i z 0) <= Rabs v_parallel * default_t_max
          /\ nth i z 0 = v_parallel * (INR i * (default_t_max / 499)))
    /\ plot_trajectory B v_perp v_parallel
       = Py.Return
           {| Plt.lines := [(x, y, z)];
              Plt.markers := [([0], [0], [0])];
              Plt.xlim := Some (- half_width B v_perp v_parallel,
                                half_width B v_perp v_parallel);
              Plt.ylim := Some (- half_width B v_perp v_parallel,
                                half_width B v_perp v_parallel);
              Plt.zlim := Some (0, z_top v_parallel) |}.
Proof.
  intros HB.
  assert (Hn : (0 <= default_num_points)%Z) by (unfold default_num_points; lia).
  assert (Htm : 0 <= default_t_max) by (unfold default_t_max; lra).
  destruct (particle_trajectory_returns B v_perp v_parallel default_t_max
              default_num_points HB Hn) as (t & _ & Hlen & Hnth & Hrun).
  change (Z.to_nat default_num_points) with 500%nat in *.
  change (IZR (default_num_points - 1)) with 499 in *.
  set (r := m * v_perp / (q * B)) in *.
  set (w := q * B / m) in *.
  set (x := Np.smul r (Np.cos (Np.smul w t))) in *.
  set (y := Np.smul r (Np.sin (Np.smul w t))) in *.
  set (z := Np.smul v_parallel t) in *.
  assert (Hlx : length x = 500%nat).
  { unfold x. now rewrite length_smul, length_cos, length_smul. }
  assert (Hly : length y = 500%nat).
  { unfold y. now rewrite length_smul, length_sin, length_smul. }
  assert (Hlz : length z = 500%nat).
  { unfold z. now rewrite length_smul. }
  assert (Hx : forall i, (i < 500)%nat -> nth i x 0 = r * cos (w * nth i t 0)).
  { intros i Hi. unfold x. apply nth_helix_x. now rewrite Hlen. }
  assert (Hy : forall i, (i < 500)%nat -> nth i y 0 = r * sin (w * nth i t 0)).
  { intros i Hi. unfold y. apply nth_helix_y. now rewrite Hlen. }
  assert (Hz : forall i, (i < 500)%nat ->
                 nth i z 0 = v_parallel * (INR i * (default_t_max / 499))).
  { intros i Hi. unfold z. rewrite nth_smul by now rewrite Hlen.
    now rewrite (Hnth i Hi). }
  assert (Htb : forall i, (i < 500)%nat ->
                  0 <= INR i * (default_t_max / 499) <= default_t_max).
  { intros i Hi.
    exact (grid_time_bounds default_t_max default_num_points i Htm Hi). }
  assert (Hbz : forall i, (i < 500)%nat ->
                  Rabs (nth i z 0) <= Rabs v_parallel * default_t_max).
  { intros i Hi. rewrite (Hz i Hi), Rabs_mult.
    apply Rmult_le_compat_l; [apply Rabs_pos|].
    destruct (Htb i Hi) as [Hlo Hhi].
    rewrite Rabs_pos_eq by exact Hlo. exact Hhi. }
  assert (Hlast : INR 499 * (default_t_max / 499) = default_t_max).
  { simpl. field. }
  (* the four reductions *)
  assert (Hmx : Np.amax (Np.abs x) = Py.Return (Rabs r)).
  { apply amax_unique.
    - intros i Hi. rewrite length_abs, Hlx in Hi.
      rewrite nth_abs, (Hx i Hi) by (rewrite Hlx; exact Hi).
      apply abs_cos_le.
    - exists 0%nat. rewrite length_abs, Hlx. split; [lia|].
      rewrite nth_abs, (Hx 0%nat), (Hnth 0%nat) by lia.
      simpl. rewrite Rmult_0_l, Rmult_0_r, cos_0, Rmult_1_r. reflexivity. }
  destruct (amax_bounds (Np.abs y)) as (my & Hmy & Hmyub & jy & Hjy & Hmyat).
  { rewrite length_abs, Hly. lia. }
  rewrite length_abs, Hly in Hjy.
  assert (Hmy_le : my <= Rabs r).
  { rewrite <- Hmyat, nth_abs, (Hy jy Hjy) by (rewrite Hly; exact Hjy).
    apply abs_sin_le. }
  assert (Hmz : Np.amax (Np.abs z)
                = Py.Return (Rabs v_parallel * default_t_max)).
  { apply amax_unique.
    - intros i Hi. rewrite length_abs, Hlz in Hi.
      rewrite nth_abs by (rewrite Hlz; exact Hi). now apply Hbz.
    - exists 499%nat. rewrite length_abs, Hlz. split; [lia|].
      rewrite nth_abs, (Hz 499%nat), Hlast, Rabs_mult by lia.
      now rewrite (Rabs_pos_eq default_t_max). }
  assert (Hzm : Np.amax z
                = Py.Return (Rmax 0 (v_parallel * default_t_max))).
  { apply amax_unique.
    - intros i Hi. rewrite Hlz in Hi. rewrite (Hz i Hi).
      destruct (Htb i Hi) as [Hlo Hhi].
      destruct (Rle_dec 0 v_parallel) as [Hv|Hv].
      + apply Rle_trans with (v_parallel * default_t_max);
          [now apply Rmult_le_compat_l | apply Rmax_r].
      + apply Rle_trans with 0; [|apply Rmax_l]. nra.
    - rewrite Hlz.
      destruct (Rle_dec 0 v_parallel) as [Hv|Hv].
      + exists 499%nat. split; [lia|].
        rewrite (Hz 499%nat), Hlast by lia.
        rewrite Rmax_right; [reflexivity|]. now apply Rmult_le_pos.
      + exists 0%nat. split; [lia|].
        rewrite (Hz 0%nat) by lia. simpl. rewrite Rmult_0_l, Rmult_0_r.
        rewrite Rmax_left; [reflexivity|]. nra. }
  exists x, y, z.
  split; [exact Hrun|].
  split; [exact Hlx|]. split; [exact Hly|]. split; [exact Hlz|].
  split.
  { intros i Hi. rewrite (Hx i Hi), (Hy i Hi).
    split; [apply abs_cos_le|]. split; [apply abs_sin_le|].
    split; [now apply Hbz | now apply Hz]. }
  unfold plot_trajectory. rewrite Hrun. simpl.
  fold x y z. rewrite Hmx, Hmy, Hmz, Hzm. simpl.
  assert (HM : Rmax (Rmax (Rabs r) my) (Rabs v_parallel * default_t_max) * 1.2
               = half_width B v_perp v_parallel).
  { unfold half_width. fold r. now rewrite (Rmax_left (Rabs r) my). }
  assert (HZ : Rmax (Rmax 0 (v_parallel * default_t_max)) 1e-3
               = z_top v_parallel).
  { unfold z_top.
    unfold Rmax. repeat destruct Rle_dec; lra. }
  rewrite HM, HZ. reflexivity.
Qed.

(** X8. For a nonzero field the axes drawn by [plot_trajectory] holds one
    line, the trajectory that [particle_trajectory] returns with its default
    arguments, and one marker at the origin.  Its x and y ranges are both
    [[-M, M]] with [M = 1.2 * max(|r|, |v_parallel| * 1e-6)],
    [r = m*v_perp/(q*B)], and its z range is
    [[0, max(v_parallel * 1e-6, 1e-3)]]. *)
Theorem plot_trajectory_limits (B v_perp v_parallel : R) :
  B <> 0 ->
  exists x y z ax,
    particle_trajectory B v_perp v_parallel 1e-6 500 = Py.Return (x, y, z)
    /\ plot_trajectory B v_perp v_parallel = Py.Return ax
    /\ Plt.lines ax = [(x, y, z)]
    /\ Plt.markers ax = [([0], [0], [0])]
    /\ Plt.xlim ax
       = Some (- (Rmax (Rabs (m * v_perp / (q * B)))
                       (Rabs v_parallel * 1e-6) * 1.2),
               Rmax (Rabs (m * v_perp / (q * B)))
                    (Rabs v_parallel * 1e-6) * 1.2)
    /\ Plt.ylim ax = Plt.xlim ax
    /\ Plt.zlim ax = Some (0, Rmax (v_parallel * 1e-6) 1e-3).
Proof.
  intros HB.
  destruct (plot_trajectory_axes B v_perp v_parallel HB)
    as (x & y & z & Hrun & _ & _ & _ & _ & Hplot).
  exists x, y, z. eexists.
  split; [exact Hrun|]. split; [exact Hplot|].
  simpl. repeat split.
Qed.

Lemma plot_trajectory_limits_witness :
  exists x y z ax,
    particle_trajectory 1e-3 1e6 2e5 1e-6 500 = Py.Return (x, y, z)
    /\ plot_trajectory 1e-3 1e6 2e5 = Py.Return ax
    /\ Plt.lines ax = [(x, y, z)]
    /\ Plt.markers ax = [([0], [0], [0])]
    /\ Plt.xlim ax
       = Some (- (Rmax (Rabs (m * 1e6 / (q * 1e-3)))
                       (Rabs 2e5 * 1e-6) * 1.2),
               Rmax (Rabs (m * 1e6 / (q * 1e-3)))
                    (Rabs 2e5 * 1e-6) * 1.2)
    /\ Plt.ylim ax = Plt.xlim ax
    /\ Plt.zlim ax = Some (0, Rmax (2e5 * 1e-6) 1e-3).
Proof.
  apply (plot_trajectory_limits 1e-3 1e6 2e5). lra.
Defined.

Lemma half_width_ge (B v_perp v_parallel : R) :
  Rabs (m * v_perp / (q * B)) <= half_width B v_perp v_parallel
  /\ Rabs v_parallel * default_t_max <= half_width B v_perp v_parallel.
Proof.
  unfold half_width.
  pose proof (Rabs_pos (m * v_perp / (q * B))) as Hr.
  pose proof (Rmax_l (Rabs (m * v_perp / (q * B)))
                (Rabs v_parallel * default_t_max)) as Hl.
  pose proof (Rmax_r (Rabs (m * v_perp / (q * B)))
                (Rabs v_parallel * default_t_max)) as Hrr.
  split; lra.
Qed.

Lemma Rabs_le_between (a b : R) : Rabs a <= b -> - b <= a <= b.
Proof. unfold Rabs. destruct (Rcase_abs a); lra. Qed.

(** X9. For a nonzero field every plotted sample lies inside the x and y
    ranges that [plot_trajectory] sets, and when [v_parallel >= 0] also
    inside the z range. *)
Theorem plot_trajectory_contains_samples (B v_perp v_parallel : R) :
  B <> 0 ->
  exists x y z ax M zt,
    plot_trajectory B v_perp v_parallel = Py.Return ax
    /\ Plt.lines ax = [(x, y, z)]
    /\ Plt.xlim ax = Some (- M, M)
    /\ Plt.ylim ax = Some (- M, M)
    /\ Plt.zlim ax = Some (0, zt)
    /\ length x = 500%nat /\ length y = 500%nat /\ length z = 500%nat
    /\ forall i, (i < 500)%nat ->
         - M <= nth i x 0 <= M
         /\ - M <= nth i y 0 <= M
         /\ (0 <= v_parallel -> 0 <= nth i z 0 <= zt).
Proof.
  intros HB.
  destruct (plot_trajectory_axes B v_perp v_parallel HB)
    as (x & y & z & _ & Hlx & Hly & Hlz & Hb & Hplot).
  exists x, y, z. eexists.
  exists (half_width B v_perp v_parallel), (z_top v_parallel).
  split; [exact Hplot|]. simpl.
  do 4 (split; [reflexivity|]).
  split; [exact Hlx|]. split; [exact Hly|]. split; [exact Hlz|].
  intros i Hi.
  destruct (Hb i Hi) as (Hx & Hy & Hz & Hzi).
  destruct (half_width_ge B v_perp v_parallel) as [Hr _].
  split; [apply Rabs_le_between; lra|].
  split; [apply Rabs_le_between; lra|].
  intros Hv.
  assert (Hzabs : Rabs (nth i z 0) = nth i z 0).
  { apply Rabs_pos_eq. rewrite Hzi.
    apply Rmult_le_pos; [exact Hv|].
    apply Rmult_le_pos; [apply pos_INR|]. unfold default_t_max. lra. }
  rewrite Hzabs, (Rabs_pos_eq v_parallel Hv) in Hz.
  split.
  - rewrite <- Hzabs. apply Rabs_pos.
  - apply Rle_trans with (v_parallel * default_t_max); [exact Hz|].
    unfold z_top. apply Rmax_l.
Qed.

Lemma plot_trajectory_contains_samples_witness :
  exists x y z ax M zt,
    plot_trajectory 1e-3 1e6 2e5 = Py.Return ax
    /\ Plt.lines ax = [(x, y, z)]
    /\ Plt.xlim ax = Some (- M, M)
    /\ Plt.ylim ax = Some (- M, M)
    /\ Plt.zlim ax = Some (0, zt)
    /\ length x = 500%nat /\ length y = 500%nat /\ length z = 500%nat
    /\ forall i, (i < 500)%nat ->
         - M <= nth i x 0 <= M
         /\ - M <= nth i y 0 <= M
         /\ (0 <= 2e5 -> 0 <= nth i z 0 <= zt).
Proof.
  apply (plot_trajectory_contains_samples 1e-3 1e6 2e5). lra.
Defined.



(** X12. For every setting of the three sliders that drive
    [plot_trajectory] the call returns, the half-width [M] of the x and y
    ranges lies between [1.3665e-4] and [1.2], and the top of the z range
    lies between [1e-3] and [1]. *)
Theorem plot_trajectory_on_sliders (B v_perp v_parallel : R) :
  Widgets.admits B_slider B ->
  Widgets.admits v_perp_slider v_perp ->
  Widgets.admits v_parallel_slider v_parallel ->
  exists ax M zt,
    plot_trajectory B v_perp v_parallel = Py.Return ax
    /\ Plt.xlim ax = Some (- M, M)
    /\ Plt.ylim ax = Some (- M, M)
    /\ Plt.zlim ax = Some (0, zt)
    /\ 1.3665e-4 <= M <= 1.2
    /\ 1e-3 <= zt <= 1.
Proof.
  unfold Widgets.admits. simpl. intros [HB1 HB2] [Hp1 Hp2] [Hl1 Hl2].
  assert (HB : B <> 0) by lra.
  destruct (plot_trajectory_axes B v_perp v_parallel HB)
    as (x & y & z & _ & _ & _ & _ & _ & Hplot).
  eexists.
  exists (half_width B v_perp v_parallel), (z_top v_parallel).
  split; [exact Hplot|]. simpl.
  do 3 (split; [reflexivity|]).
  assert (HqB : 0 < q * B) by (unfold q; nra).
  assert (Hr : 1.13875e-4 <= m * v_perp / (q * B) <= 0.2846875).
  { assert (Hc : m * v_perp / (q * B) * (q * B) = m * v_perp).
    { pose proof q_pos. field. split; lra. }
    split.
    - apply (Rmult_le_reg_r (q * B)); [exact HqB|].
      rewrite Hc. unfold q, m. nra.
    - apply (Rmult_le_reg_r (q * B)); [exact HqB|].
      rewrite Hc. unfold q, m. nra. }
  assert (Hra : Rabs (m * v_perp / (q * B)) = m * v_perp / (q * B)).
  { apply Rabs_pos_eq. lra. }
  assert (Hva : Rabs v_parallel = v_parallel) by (apply Rabs_pos_eq; lra).
  split.
  - unfold half_width, default_t_max. rewrite Hra, Hva.
    unfold Rmax. destruct Rle_dec; lra.
  - unfold z_top, default_t_max.
    unfold Rmax. destruct Rle_dec; lra.
Qed.

Lemma plot_trajectory_on_sliders_witness :
  exists ax M zt,
    plot_trajectory (Widgets.value B_slider) (Widgets.value v_perp_slider)
                    (Widgets.value v_parallel_slider) = Py.Return ax
    /\ Plt.xlim ax = Some (- M, M)
    /\ Plt.ylim ax = Some (- M, M)
    /\ Plt.zlim ax = Some (0, zt)
    /\ 1.3665e-4 <= M <= 1.2
    /\ 1e-3 <= zt <= 1.
Proof.
  apply (plot_trajectory_on_sliders (Widgets.value B_slider)
           (Widgets.value v_perp_slider) (Widgets.value v_parallel_slider));
    unfold Widgets.admits; simpl; lra.
Defined.

End PlotFacts.

(* ================================================================== *)
(** * Further properties of the EMF generator *)
(* ================================================================== *)

Section FaradayMore.

Import Faraday.

Lemma exp_le_1 (e : R) : e <= 0 -> exp e <= 1.
Proof.
  intros [Hlt|Heq].
  - left. rewrite <- exp_0. now apply exp_increasing.
  - rewrite Heq, exp_0. lra.
Qed.

(** The exponent of the Gaussian is never positive. *)
Lemma gauss_exponent_nonpos (u L : R) :
  L <> 0 -> - u ^ 2 / (2 * (L / 10) ^ 2) <= 0.
Proof.
  intros HL.
  assert (HD : 0 < 2 * (L / 10) ^ 2).
  { assert (0 < (L / 10) ^ 2); [|lra].
    rewrite <- Rsqr_pow2. apply Rsqr_pos_lt. lra. }
  assert (Hu : 0 <= u ^ 2) by (rewrite <- Rsqr_pow2; apply Rle_0_sqr).
  unfold Rdiv at 1.
  assert (Hinv : 0 < / (2 * (L / 10) ^ 2)) by now apply Rinv_0_lt_compat.
  nra.
Qed.

(** An index is on the grid exactly when its time is before [duration]. *)
Lemma grid_index_iff (duration : R) (i : nat) :
  (i < length (Np.arange 0 duration dt))%nat <-> INR i * dt < duration.
Proof.
  rewrite length_grid, lt_ceil_iff.
  pose proof dt_pos as Hdt.
  split; intros H.
  - apply (Rmult_lt_compat_r dt) in H; [|exact Hdt].
    unfold Rdiv in H. rewrite Rmult_assoc, Rinv_l in H by lra. lra.
  - apply (Rmult_lt_reg_r dt); [exact Hdt|].
    unfold Rdiv. rewrite Rmult_assoc, Rinv_l by lra. lra.
Qed.

(** X13. [faraday_simulation] returns exactly when [duration] exceeds one
    time step; otherwise the grid has fewer than two samples (none at all
    for [duration <= 0]) and the call ends with the [ValueError] of
    [np.gradient], whatever the other arguments are. *)
Theorem faraday_simulation_exceptions (v A B0 L N duration : R) :
  (duration <= 0.01 ->
   faraday_simulation v A B0 L N duration = Py.Raise Py.ValueError)
  /\ (duration <= 0 -> Np.arange 0 duration 0.01 = [])
  /\ (Py.returns (faraday_simulation v A B0 L N duration)
      <-> 0.01 < duration).
Proof.
  split; [apply faraday_simulation_raises|]. split.
  - intros Hd.
    assert (Hlen : length (Np.arange 0 duration dt) = 0%nat).
    { destruct (length (Np.arange 0 duration dt)) eqn:E; [reflexivity|].
      exfalso.
      assert (H0 : (0 < length (Np.arange 0 duration dt))%nat) by lia.
      apply grid_index_iff in H0. simpl in H0. lra. }
    now apply length_zero_iff_nil.
  - split.
    + intros [w Hw].
      destruct (Rlt_le_dec 0.01 duration) as [Hlt|Hle]; [exact Hlt|].
      rewrite (faraday_simulation_raises v A B0 L N duration Hle) in Hw.
      discriminate.
    + intros Hd.
      destruct (faraday_simulation_returns v A B0 L N duration Hd)
        as (g & _ & _ & Hrun).
      eexists. exact Hrun.
Qed.

(** X14. For positive [A] and [B0] and a nonzero [L] no flux sample is
    negative and none exceeds the peak value [B0 * A]. *)
Theorem faraday_flux_bounds (v A B0 L duration : R) :
  0 < A -> 0 < B0 -> L <> 0 ->
  exists t flux,
    flux_waveform v A B0 L duration = Py.Return (t, flux)
    /\ length flux = length t
    /\ forall i, (i < length flux)%nat -> 0 <= nth i flux 0 <= B0 * A.
Proof.
  intros HA HB HL.
  do 2 eexists. split; [apply flux_waveform_value|].
  split; [apply length_map|].
  intros i Hi. rewrite length_map in Hi.
  rewrite nth_flux by exact Hi. unfold flux_at.
  set (e := - (v * (INR i * dt) - L / 2) ^ 2 / (2 * (L / 10) ^ 2)).
  pose proof (exp_pos e) as Hpos.
  pose proof (exp_le_1 e (gauss_exponent_nonpos _ L HL)) as Hle.
  split.
  - apply Rmult_le_pos; [|lra].
    apply Rmult_le_pos; lra.
  - assert (H1 : B0 * exp e <= B0 * 1)
      by (apply Rmult_le_compat_l; lra).
    nra.
Qed.

Lemma faraday_flux_bounds_witness :
  exists t flux,
    flux_waveform 1 1 1 1 2 = Py.Return (t, flux)
    /\ length flux = length t
    /\ forall i, (i < length flux)%nat -> 0 <= nth i flux 0 <= 1 * 1.
Proof.
  apply (faraday_flux_bounds 1 1 1 1 2); lra.
Defined.

(** The EMF array in terms of [flux_at]. *)
Lemma faraday_simulation_closed_form (v A B0 L N duration : R) :
  dt < duration ->
  exists emf,
    faraday_simulation v A B0 L N duration
    = Py.Return (Np.arange 0 duration dt,
                 map (flux_at v A B0 L) (Np.arange 0 duration dt),
                 emf)
    /\ length emf = length (Np.arange 0 duration dt)
    /\ (2 <= length emf)%nat
    /\ nth 0 emf 0
       = - N * ((flux_at v A B0 L (INR 1 * dt)
                 - flux_at v A B0 L (INR 0 * dt)) / dt)
    /\ nth (length emf - 1) emf 0
       = - N * ((flux_at v A B0 L (INR (length emf - 1) * dt)
                 - flux_at v A B0 L (INR (length emf - 2) * dt)) / dt)
    /\ forall i, (0 < i < length emf - 1)%nat ->
         nth i emf 0
         = - N * ((flux_at v A B0 L (INR (i + 1) * dt)
                   - flux_at v A B0 L (INR (i - 1) * dt)) / (2 * dt)).
Proof.
  intros Hd.
  pose proof (grid_two_samples duration Hd) as Hn.
  set (t := Np.arange 0 duration dt) in *.
  set (flux := map (flux_at v A B0 L) t).
  assert (Hlf : length flux = length t) by apply length_map.
  destruct (gradient_returns flux dt) as (g & Hg & Hlen & H0 & Hlast & Hmid).
  { rewrite Hlf. exact Hn. }
  assert (Hf : forall i, (i < length t)%nat ->
                 nth i flux 0 = flux_at v A B0 L (INR i * dt)).
  { intros i Hi. unfold flux, t. now apply nth_flux. }
  exists (Np.smul (- N) g).
  rewrite length_smul, Hlen, Hlf.
  split.
  { unfold faraday_simulation. rewrite flux_waveform_value. simpl.
    fold t. fold flux. rewrite Hg. reflexivity. }
  split; [reflexivity|]. split; [exact Hn|].
  rewrite Hlf in Hlast, Hmid.
  split; [|split].
  - rewrite nth_smul by lia. rewrite H0, !Hf by lia. reflexivity.
  - rewrite nth_smul by lia. rewrite Hlast, !Hf by lia. reflexivity.
  - intros i Hi. rewrite nth_smul by lia.
    rewrite (Hmid i Hi), !Hf by lia. reflexivity.
Qed.

(** The Gaussian is symmetric about the centring time [L/(2v)]. *)
Lemma flux_at_symmetric (v A B0 L d : R) :
  v <> 0 ->
  flux_at v A B0 L (L / (2 * v) + d) = flux_at v A B0 L (L / (2 * v) - d).
Proof.
  intros Hv. unfold flux_at.
  replace (v * (L / (2 * v) + d) - L / 2) with (v * d) by (field; exact Hv).
  replace (v * (L / (2 * v) - d) - L / 2) with (- (v * d)) by (field; exact Hv).
  replace ((- (v * d)) ^ 2) with ((v * d) ^ 2) by ring.
  reflexivity.
Qed.

Lemma grid_default_length : length (Np.arange 0 2 dt) = 200%nat.
Proof.
  rewrite length_grid.
  rewrite (ceil_unique (2 / dt) 200); [reflexivity|].
  unfold dt. lra.
Qed.

(** X16. When the centring time [L/(2v)] is the grid time of sample [k],
    the flux waveform is symmetric about that sample:
    [flux_{k+j} = flux_{k-j}] for every [j] with both indices on the
    grid. *)
Theorem faraday_flux_symmetric (v A B0 L duration : R) (k : nat) :
  0 < v -> 0 < L -> INR k * 0.01 = L / (2 * v) ->
  exists t flux,
    flux_waveform v A B0 L duration = Py.Return (t, flux)
    /\ forall j, (j <= k)%nat -> (k + j < length flux)%nat ->
         nth (k + j) flux 0 = nth (k - j) flux 0.
Proof.
  intros Hv HL Hk.
  do 2 eexists. split; [apply flux_waveform_value|].
  intros j Hjk Hj. rewrite length_map in Hj.
  rewrite !nth_flux by lia.
  rewrite plus_INR, minus_INR by exact Hjk.
  change 0.01 with dt in Hk.
  replace ((INR k + INR j) * dt) with (L / (2 * v) + INR j * dt)
    by (rewrite <- Hk; ring).
  replace ((INR k - INR j) * dt) with (L / (2 * v) - INR j * dt)
    by (rewrite <- Hk; ring).
  apply flux_at_symmetric. lra.
Qed.

Lemma faraday_flux_symmetric_witness :
  exists t flux,
    flux_waveform 1 1 1 1 2 = Py.Return (t, flux)
    /\ forall j, (j <= 50)%nat -> (50 + j < length flux)%nat ->
         nth (50 + j) flux 0 = nth (50 - j) flux 0.
Proof.
  apply (faraday_flux_symmetric 1 1 1 1 2 50).
  - lra.
  - lra.
  - simpl. lra.
Defined.

(** X17. When the centring time [L/(2v)] is the grid time of sample [k],
    the EMF waveform is antisymmetric about that sample at interior
    samples: [emf_{k+j} = - emf_{k-j}] whenever [k-j] and [k+j] are both
    interior indices; in particular the EMF is zero at sample [k]. *)
Theorem faraday_emf_antisymmetric (v A B0 L N duration : R) (k : nat) :
  0 < v -> 0 < L -> 0.01 < duration -> INR k * 0.01 = L / (2 * v) ->
  exists t flux emf,
    faraday_simulation v A B0 L N duration = Py.Return (t, flux, emf)
    /\ (forall j, (j < k)%nat -> (k + j + 1 < length emf)%nat ->
          nth (k + j) emf 0 = - nth (k - j) emf 0)
    /\ ((0 < k)%nat -> (k + 1 < length emf)%nat -> nth k emf 0 = 0).
Proof.
  intros Hv HL Hd Hk.
  destruct (faraday_simulation_closed_form v A B0 L N duration Hd)
    as (emf & Hrun & _ & _ & _ & _ & Hmid).
  do 2 eexists. exists emf. split; [exact Hrun|].
  change 0.01 with dt in Hk.
  assert (Hvn : v <> 0) by lra.
  assert (Hanti : forall j, (j < k)%nat -> (k + j + 1 < length emf)%nat ->
                    nth (k + j) emf 0 = - nth (k - j) emf 0).
  { intros j Hjk Hj.
    rewrite (Hmid (k + j)%nat), (Hmid (k - j)%nat) by lia.
    assert (E1 : INR (k + j + 1) * dt = L / (2 * v) + (INR j + 1) * dt).
    { rewrite !plus_INR. simpl. rewrite <- Hk. ring. }
    assert (E2 : INR (k + j - 1) * dt = L / (2 * v) + (INR j - 1) * dt).
    { rewrite minus_INR, plus_INR by lia. simpl. rewrite <- Hk. ring. }
    assert (E3 : INR (k - j + 1) * dt = L / (2 * v) - (INR j - 1) * dt).
    { rewrite plus_INR, minus_INR by lia. simpl. rewrite <- Hk. ring. }
    assert (E4 : INR (k - j - 1) * dt = L / (2 * v) - (INR j + 1) * dt).
    { rewrite !minus_INR by lia. simpl. rewrite <- Hk. ring. }
    rewrite E1, E2, E3, E4.
    rewrite (flux_at_symmetric v A B0 L ((INR j + 1) * dt) Hvn).
    rewrite (flux_at_symmetric v A B0 L ((INR j - 1) * dt) Hvn).
    pose proof dt_pos. field. lra. }
  split; [exact Hanti|].
  intros Hk0 Hk1.
  assert (H := Hanti 0%nat Hk0).
  rewrite !Nat.add_0_r, Nat.sub_0_r in H.
  specialize (H Hk1). lra.
Qed.

Lemma faraday_emf_antisymmetric_witness :
  exists t flux emf,
    faraday_simulation 1 1 1 1 100 2 = Py.Return (t, flux, emf)
    /\ length emf = 200%nat
    /\ nth 51 emf 0 = - nth 49 emf 0
    /\ nth 50 emf 0 = 0.
Proof.
  destruct (faraday_emf_antisymmetric 1 1 1 1 100 2 50)
    as (t & flux & emf & Hrun & Hanti & Hzero).
  - lra.
  - lra.
  - lra.
  - simpl. lra.
  - assert (Hlen : length emf = 200%nat).
    { destruct (faraday_simulation_closed_form 1 1 1 1 100 2)
        as (emf' & Hrun' & Hlen' & _); [unfold dt; lra|].
      rewrite Hrun in Hrun'. injection Hrun' as _ _ He. subst emf'.
      rewrite Hlen'. apply grid_default_length. }
    exists t, flux, emf. split; [exact Hrun|]. split; [exact Hlen|].
    split.
    + apply (Hanti 1%nat); [lia | rewrite Hlen; lia].
    + apply Hzero; [lia | rewrite Hlen; lia].
Defined.

(** X20. The number of turns only scales the EMF: for a nonzero [L],
    running with [c * N] turns gives the same time and flux arrays as
    running with [N] turns and the EMF array multiplied by [c], and it
    raises exactly when the run with [N] turns raises. *)
Theorem faraday_emf_linear_in_turns (v A B0 L N duration c : R) :
  L <> 0 ->
  faraday_simulation v A B0 L (c * N) duration
  = match faraday_simulation v A B0 L N duration with
    | Py.Return (t, flux, emf) => Py.Return (t, flux, Np.smul c emf)
    | Py.Raise e => Py.Raise e
    end.
Proof.
  intros _.
  unfold faraday_simulation. rewrite flux_waveform_value. simpl.
  destruct (Np.gradient _ dt) as [g|e]; simpl; [|reflexivity].
  unfold Np.smul. rewrite map_map.
  do 2 f_equal. apply map_ext. intros a. ring.
Qed.

Lemma faraday_emf_linear_in_turns_witness :
  faraday_simulation 1 1 1 1 (3 * 100) 2
  = match faraday_simulation 1 1 1 1 100 2 with
    | Py.Return (t, flux, emf) => Py.Return (t, flux, Np.smul 3 emf)
    | Py.Raise e => Py.Raise e
    end.
Proof.
  apply (faraday_emf_linear_in_turns 1 1 1 1 100 2 3). lra.
Defined.

(** X21. For every setting of the six sliders that drive
    [faraday_simulation] the call returns; the waveform has between 100
    and 1000 samples, and every flux sample lies between 0 and 50. *)
Theorem faraday_simulation_on_sliders (v A B0 L N duration : R) :
  Widgets.admits FaradayUI.v_slider v ->
  Widgets.admits FaradayUI.A_slider A ->
  Widgets.admits FaradayUI.B0_slider B0 ->
  Widgets.admits FaradayUI.L_slider L ->
  Widgets.admits FaradayUI.N_slider N ->
  Widgets.admits FaradayUI.duration_slider duration ->
  exists t flux emf,
    faraday_simulation v A B0 L N duration = Py.Return (t, flux, emf)
    /\ length flux = length t
    /\ length emf = length t
    /\ (100 <= length t <= 1000)%nat
    /\ forall i, (i < length t)%nat -> 0 <= nth i flux 0 <= 50.
Proof.
  unfold Widgets.admits. simpl.
  intros [Hv1 Hv2] [HA1 HA2] [HB1 HB2] [HL1 HL2] [HN1 HN2] [Hd1 Hd2].
  destruct (faraday_simulation_closed_form v A B0 L N duration)
    as (emf & Hrun & Hlen & _); [unfold dt; lra|].
  do 2 eexists. exists emf. split; [exact Hrun|].
  split; [apply length_map|]. split; [exact Hlen|].
  split.
  - split.
    + assert (H : (99 < length (Np.arange 0 duration dt))%nat); [|lia].
      apply grid_index_iff. unfold dt. simpl. lra.
    + destruct (Nat.le_gt_cases (length (Np.arange 0 duration dt)) 1000)
        as [Hle|Hgt]; [exact Hle|].
      exfalso.
      assert (H : (1000 < length (Np.arange 0 duration dt))%nat) by lia.
      apply grid_index_iff in H.
      replace (INR 1000) with 1000 in H
        by (rewrite INR_IZR_INZ; reflexivity).
      unfold dt in H. lra.
  - intros i Hi. rewrite nth_flux by exact Hi. unfold flux_at.
    set (e := - (v * (INR i * dt) - L / 2) ^ 2 / (2 * (L / 10) ^ 2)).
    pose proof (exp_pos e) as Hpos.
    assert (HLn : L <> 0) by lra.
    pose proof (exp_le_1 e (gauss_exponent_nonpos _ L HLn)) as Hle.
    split.
    + apply Rmult_le_pos; [|lra].
      apply Rmult_le_pos; lra.
    + assert (H1 : B0 * exp e <= 10 * 1).
      { apply Rmult_le_compat; lra. }
      assert (H2 : B0 * exp e * A <= 10 * 1 * 5).
      { apply Rmult_le_compat; try lra.
        apply Rmult_le_pos; lra. }
      lra.
Qed.

Lemma faraday_simulation_on_sliders_witness :
  exists t flux emf,
    faraday_simulation 1.0 1.0 1.0 1.0 100 2.0 = Py.Return (t, flux, emf)
    /\ length flux = length t
    /\ length emf = length t
    /\ (100 <= length t <= 1000)%nat
    /\ forall i, (i < length t)%nat -> 0 <= nth i flux 0 <= 50.
Proof.
  apply (faraday_simulation_on_sliders 1.0 1.0 1.0 1.0 100 2.0);
    unfold Widgets.admits; simpl; lra.
Defined.

End FaradayMore.
